(** * A metered gateway in front of a completion API: [src/index.js]

    The Lambda handler verifies a bearer token, checks the caller's prepaid
    balance, forwards the request body upstream, writes a transaction
    record, prices the response and deducts the price from the balance.

    The development embeds the file function by function.  JavaScript values
    are an inductive type, numbers are IEEE binary64 floats (the kernel's
    primitive floats), and every call that leaves the process (clock, token
    verification, DynamoDB, HTTPS, console) is a node of a small free monad,
    so that the same program text can be run against an arbitrary
    environment, and interleaved with another invocation over a shared
    ledger. *)

From Stdlib Require Import ZArith QArith Qcanon Floats Bool Ascii List Lia.
From stdpp Require Import base strings gmap.
Import ListNotations.

Set Warnings "-inexact-float,-register-all".
Local Open Scope string_scope.

(** ** JavaScript values *)

(** [VNative] stands for the built-in objects that are reachable through
    [Object.prototype] ([constructor], [toString], ...): they are objects,
    hence neither nullish nor falsy, and carry none of the data properties
    this program reads. *)
Inductive value : Type :=
| VUndefined
| VNull
| VBool (b : bool)
| VNum (x : float)
| VStr (s : string)
| VArr (xs : list value)
| VObj (fields : list (string * value))
| VNative (name : string).

(** A value that is not an object: a JSON scalar, or [undefined]. *)
Definition primitive (v : value) : bool :=
  match v with
  | VArr _ | VObj _ | VNative _ => false
  | _ => true
  end.

(** The preferred type of a conversion to a primitive. *)
Inductive hint : Type := hint_number | hint_string.

(** Completion of an expression: a value, or a thrown exception. *)
Inductive completion (A : Type) : Type :=
| Normal (a : A)
| Abrupt (e : value).
Arguments Normal {A} a.
Arguments Abrupt {A} e.

Definition cbind {A B} (c : completion A) (f : A -> completion B) : completion B :=
  match c with
  | Normal a => f a
  | Abrupt e => Abrupt e
  end.

Declare Scope completion_scope.
Delimit Scope completion_scope with completion.
Notation "x <-- c ;; k" := (cbind c (fun x => k))
  (at level 100, c at next level, right associativity) : completion_scope.

(** The double quote character, as a string. *)
Definition dquote : string := String (Ascii.ascii_of_nat 34) EmptyString.

(** [new Error(msg)] and the engine's [TypeError]: objects with a [message]. *)
Definition new_Error (msg : string) : value :=
  VObj [("message", VStr msg)].

Definition TypeError (msg : string) : value :=
  VObj [("message", VStr msg); ("name", VStr "TypeError")].

Fixpoint own_property (fields : list (string * value)) (k : string) : option value :=
  match fields with
  | [] => None
  | (k', v) :: rest => if String.eqb k' k then Some v else own_property rest k
  end.

Definition nullish (v : value) : bool :=
  match v with
  | VUndefined | VNull => true
  | _ => false
  end.

(** The names inherited by every ordinary object from [Object.prototype]. *)
Definition Object_prototype : list string :=
  [ "constructor"; "__defineGetter__"; "__defineSetter__"; "hasOwnProperty";
    "__lookupGetter__"; "__lookupSetter__"; "isPrototypeOf";
    "propertyIsEnumerable"; "toString"; "valueOf"; "__proto__";
    "toLocaleString" ].

Definition inherited (k : string) : value :=
  if existsb (String.eqb k) Object_prototype then VNative k else VUndefined.

(** [v.k] for a value that is not nullish.  On a plain object the own
    properties come first, then [Object.prototype].  The properties this
    program reads from strings, numbers, booleans, arrays and built-ins
    ([model], [usage], [input], [message], ...) exist on none of them. *)
Definition member (v : value) (k : string) : value :=
  match v with
  | VObj fields =>
      match own_property fields k with
      | Some x => x
      | None => inherited k
      end
  | _ => VUndefined
  end.

(** [v.k]: reading a property of [undefined] or [null] throws. *)
Definition get (v : value) (k : string) : completion value :=
  match v with
  | VUndefined =>
      Abrupt (TypeError ("Cannot read properties of undefined (reading '" ++ k ++ "')"))
  | VNull =>
      Abrupt (TypeError ("Cannot read properties of null (reading '" ++ k ++ "')"))
  | _ => Normal (member v k)
  end.

(** [v?.k]: optional chaining short-circuits to [undefined]. *)
Definition opt_get (v : value) (k : string) : value :=
  if nullish v then VUndefined else member v k.

Definition ToBoolean (v : value) : bool :=
  match v with
  | VUndefined | VNull => false
  | VBool b => b
  | VNum x => negb (PrimFloat.is_zero x || PrimFloat.is_nan x)
  | VStr s => negb (String.eqb s "")
  | VArr _ | VObj _ | VNative _ => true
  end.

(** [a || b] *)
Definition or_else (a b : value) : value :=
  if ToBoolean a then a else b.

(** [a === b] where [b] is a string or [undefined]; an object never equals a
    primitive. *)
Definition strict_equal (a b : value) : bool :=
  match a, b with
  | VUndefined, VUndefined => true
  | VNull, VNull => true
  | VBool x, VBool y => Bool.eqb x y
  | VNum x, VNum y => PrimFloat.eqb x y
  | VStr x, VStr y => String.eqb x y
  | _, _ => false
  end.

(** ** Calls that leave the process *)

(** The bytes of one ['data'] event. *)
Definition Buffer : Type := list Byte.byte.

(** What the HTTPS exchange delivers to the listeners of
    [makeOpenAIRequest]: the response's status code and its body chunks
    followed by ['end']; an ['error'] on the request; or a response that
    starts and never comes to its ['end'], with no ['error'] on the request
    (the connection closes in the middle of the body). *)
Inductive exchange : Type :=
| Ended (statusCode : float) (chunks : list Buffer)
| Errored (error : value)
| Unfinished (statusCode : float) (chunks : list Buffer).

(** A call and the type of its answer.  A promise settles to a value
    ([Normal]) or rejects ([Abrupt]). *)
Inductive call : Type -> Type :=
| Date_now : call float
| client_getTokenInfo (accessToken : value) : call (completion value)
| dynamoDB_get (params : value) : call (completion value)
| dynamoDB_put (params : value) : call (completion value)
| dynamoDB_update (params : value) : call (completion value)
| https_request (url : string) (options : value) (body : string) : call exchange
| console_log (args : list value) : call unit
| console_error (args : list value) : call unit.

(** A program: it returns, throws into the enclosing [try] (or rejects the
    promise of its [async] function), fails inside an event listener, where
    no [try] of the caller and no promise sees the exception, awaits a
    promise that nothing will settle, or performs a call and continues
    with the answer. *)
Inductive prog (A : Type) : Type :=
| Ret (a : A)
| Throw (e : value)
| Escape (e : value)
| Hang
| Do {X : Type} (c : call X) (k : X -> prog A).
Arguments Ret {A} a.
Arguments Throw {A} e.
Arguments Escape {A} e.
Arguments Hang {A}.
Arguments Do {A X} c k.

Fixpoint bind {A B} (p : prog A) (f : A -> prog B) : prog B :=
  match p with
  | Ret a => f a
  | Throw e => Throw e
  | Escape e => Escape e
  | Hang => Hang
  | Do c k => Do c (fun x => bind (k x) f)
  end.

(** [try { p } catch (err) { h err }] *)
Fixpoint try_catch {A} (p : prog A) (h : value -> prog A) : prog A :=
  match p with
  | Ret a => Ret a
  | Throw e => h e
  | Escape e => Escape e
  | Hang => Hang
  | Do c k => Do c (fun x => try_catch (k x) h)
  end.

(** An expression evaluated in statement position. *)
Definition eval {A} (c : completion A) : prog A :=
  match c with
  | Normal a => Ret a
  | Abrupt e => Throw e
  end.

(** The same inside an event listener. *)
Definition in_listener {A} (c : completion A) : prog A :=
  match c with
  | Normal a => Ret a
  | Abrupt e => Escape e
  end.

(** [await] of the promise a call returns. *)
Definition await (c : call (completion value)) : prog value :=
  Do c eval.

Definition perform {X} (c : call X) : prog X :=
  Do c Ret.

Declare Scope prog_scope.
Delimit Scope prog_scope with prog.
Notation "x <- p ;; k" := (bind p (fun x => k))
  (at level 100, p at next level, right associativity) : prog_scope.
Notation "p ;; k" := (bind p (fun _ => k))
  (at level 100, right associativity) : prog_scope.

(** ** Running an invocation against an environment *)

(** What an observer of the process boundary sees: each call with the
    answer it got, in the order the calls were made. *)
Inductive effect : Type :=
| Clock (now : float)
| TokenInfo (accessToken : value) (answer : completion value)
| AccountRead (params : value) (answer : completion value)
| LogWrite (params : value) (answer : completion value)
| LedgerUpdate (params : value) (answer : completion value)
| Upstream (url : string) (options : value) (body : string) (answer : exchange)
| ConsoleLog (args : list value)
| ConsoleError (args : list value).

Definition observe {X} (c : call X) : X -> effect :=
  match c in call T return T -> effect with
  | Date_now => Clock
  | client_getTokenInfo accessToken => TokenInfo accessToken
  | dynamoDB_get params => AccountRead params
  | dynamoDB_put params => LogWrite params
  | dynamoDB_update params => LedgerUpdate params
  | https_request url options text => Upstream url options text
  | console_log args => fun _ => ConsoleLog args
  | console_error args => fun _ => ConsoleError args
  end.

(** The environment answers every call; the answer may depend on all that
    happened before (the clock advances, a table changes). *)
Definition world : Type := list effect -> forall X, call X -> X.

(** How an invocation ends: its promise fulfils, it rejects, an exception
    is thrown past it, or it never settles and nothing is returned. *)
Inductive outcome (A : Type) : Type :=
| Returned (a : A)
| Rejected (e : value)
| Uncaught (e : value)
| Unsettled.
Arguments Returned {A} a.
Arguments Rejected {A} e.
Arguments Uncaught {A} e.
Arguments Unsettled {A}.

(** [run w p past] runs [p] after the events [past] and gives the outcome
    with all events, oldest first. *)
Fixpoint run {A} (w : world) (p : prog A) (past : list effect) : outcome A * list effect :=
  match p with
  | Ret a => (Returned a, past)
  | Throw e => (Rejected e, past)
  | Escape e => (Uncaught e, past)
  | Hang => (Unsettled, past)
  | Do c k =>
      let x := w past _ c in
      run w (k x) (past ++ [observe c x])
  end.

Definition is_upstream (e : effect) : bool :=
  match e with Upstream _ _ _ _ => true | _ => false end.

Definition is_log_write (e : effect) : bool :=
  match e with LogWrite _ _ => true | _ => false end.

Definition is_ledger_update (e : effect) : bool :=
  match e with LedgerUpdate _ _ => true | _ => false end.

Definition is_account_read (e : effect) : bool :=
  match e with AccountRead _ _ => true | _ => false end.

(** The calls that write to a table. *)
Definition is_write (e : effect) : bool :=
  is_log_write e || is_ledger_update e.

(** No upstream call, no log write and no ledger update. *)
Definition no_side_effect (trace : list effect) : Prop :=
  filter is_upstream trace = [] /\
  filter is_log_write trace = [] /\
  filter is_ledger_update trace = [].

(** ** A concrete engine and environment

    The scenarios below run the handler on explicit inputs.  The engine of
    the scenarios answers for the few strings, numbers and texts that occur
    in them, as Node.js does. *)

Module Sample.

Definition quoted (s : string) : string := dquote ++ s ++ dquote.

(** No scenario converts a string to a number. *)
Definition StringToNumber (s : string) : float := PrimFloat.nan.

Definition NumberToString (x : float) : string :=
  if PrimFloat.eqb x 1700000000000 then "1700000000000"
  else if PrimFloat.eqb x 1700000001500 then "1700000001500"
  else if PrimFloat.eqb x 500 then "500"
  else "NaN".

(** A plain object has the inherited [toString]. *)
Definition ToPrimitive (h : hint) (v : value) : completion value :=
  Normal (VStr "[object Object]").

(** [{"model":"gpt-3.5-turbo","usage":{"prompt_tokens":100,"completion_tokens":50}}] *)
Definition completion_text : string :=
  "{" ++ quoted "model" ++ ":" ++ quoted "gpt-3.5-turbo" ++ ","
      ++ quoted "usage" ++ ":{" ++ quoted "prompt_tokens" ++ ":100,"
      ++ quoted "completion_tokens" ++ ":50}}".

(** The bytes of a text of the scenarios, all of them ASCII, and the way
    back. *)
Definition bytes (s : string) : Buffer := String.list_byte_of_string s.

Definition Buffer_toString (b : Buffer) : string := String.string_of_list_byte b.

(** The same text as it arrives, in two chunks. *)
Definition completion_chunks : list Buffer :=
  [ bytes ("{" ++ quoted "model" ++ ":" ++ quoted "gpt-3.5-turbo" ++ ",");
    bytes (quoted "usage" ++ ":{" ++ quoted "prompt_tokens" ++ ":100,"
             ++ quoted "completion_tokens" ++ ":50}}") ].

(** The same completion with a space after every colon and comma. *)
Definition spaced_text : string :=
  "{" ++ quoted "model" ++ ": " ++ quoted "gpt-3.5-turbo" ++ ", "
      ++ quoted "usage" ++ ": {" ++ quoted "prompt_tokens" ++ ": 100, "
      ++ quoted "completion_tokens" ++ ": 50}}".

(** A header value of tabs and printable ASCII characters is accepted. *)
Definition valid_header_value (s : string) : bool :=
  forallb (fun c => (Ascii.nat_of_ascii c =? 9)%nat
                    || (32 <=? Ascii.nat_of_ascii c)%nat
                       && (Ascii.nat_of_ascii c <=? 126)%nat)
          (String.list_ascii_of_string s).

Definition completion_value : value :=
  VObj [ ("model", VStr "gpt-3.5-turbo");
         ("usage", VObj [ ("prompt_tokens", VNum 100);
                          ("completion_tokens", VNum 50) ]) ].

Definition SyntaxError : value :=
  VObj [ ("message", VStr "Unexpected token < in JSON at position 0");
         ("name", VStr "SyntaxError") ].

Definition JSON_parse (text : string) : completion value :=
  if String.eqb text completion_text then Normal completion_value
  else if String.eqb text spaced_text then Normal completion_value
  else if String.eqb text "{}" then Normal (VObj [])
  else Abrupt SyntaxError.

Definition JSON_stringify (v : value) : value :=
  match v with
  | VObj [] => VStr "{}"
  | VObj [("message", VStr message); ("error", VStr error)] =>
      VStr ("{" ++ quoted "message" ++ ":" ++ quoted message ++ ","
                ++ quoted "error" ++ ":" ++ quoted error ++ "}")
  | VObj (("model", _) :: _) => VStr completion_text
  | _ => VUndefined
  end.

Definition GOOGLE_CLIENT_ID : option string :=
  Some "1234.apps.googleusercontent.com".

Definition OPENAI_KEY : option string := Some "sk-test".

(** Quarters of a unit are the amounts of the ledger scenarios. *)
Definition marshal (x : float) : option Qc :=
  if PrimFloat.eqb x 0.25 then Some (Q2Qc (1 # 4))
  else if PrimFloat.eqb x 0.5 then Some (Q2Qc (1 # 2))
  else None.

Definition unmarshal (q : Qc) : float :=
  if Qc_eq_bool q (Q2Qc (39 # 4)) then 9.75%float
  else if Qc_eq_bool q (Q2Qc (19 # 2)) then 9.5%float
  else if Qc_eq_bool q (Q2Qc (37 # 4)) then 9.25%float
  else 0%float.

(** What the collaborators answer in a scenario. *)
Record answers : Type := {
  tokenInfo : completion value;
  account : completion value;
  upstream : exchange;
  logged : completion value;
  deducted : completion value
}.

(** The clock shows 1.5 seconds more once the first call has been made. *)
Definition clock (past : list effect) : float :=
  match past with
  | [] => 1700000000000%float
  | _ => 1700000001500%float
  end.

Definition environment (a : answers) : world :=
  fun past X c =>
    match c in call T return T with
    | Date_now => clock past
    | client_getTokenInfo _ => tokenInfo a
    | dynamoDB_get _ => account a
    | dynamoDB_put _ => logged a
    | dynamoDB_update _ => deducted a
    | https_request _ _ _ => upstream a
    | console_log _ => tt
    | console_error _ => tt
    end.

Definition idToken (aud : string) : value :=
  VObj [ ("aud", VStr aud); ("email", VStr "ada@example.com") ].

Definition Item (fields : list (string * value)) : value :=
  VObj [("Item", VObj (("UserID", VStr "ada@example.com") :: fields))].

(** Valid token, balance 10, the upstream answers 200 with the completion,
    both tables accept their request. *)
Definition all_well : answers :=
  {| tokenInfo := Normal (idToken "1234.apps.googleusercontent.com");
     account := Normal (Item [("Balance", VNum 10)]);
     upstream := Ended 200 completion_chunks;
     logged := Normal (VObj []);
     deducted := Normal (VObj [("Attributes", VObj [("Balance", VNum 9.99974787)])]) |}.

(** The token was issued for another client. *)
Definition other_audience : answers :=
  {| tokenInfo := Normal (idToken "9999.apps.googleusercontent.com");
     account := account all_well;
     upstream := upstream all_well;
     logged := logged all_well;
     deducted := deducted all_well |}.

(** The accounts table has no item for the subject. *)
Definition no_account : answers :=
  {| tokenInfo := tokenInfo all_well;
     account := Normal (VObj []);
     upstream := upstream all_well;
     logged := logged all_well;
     deducted := deducted all_well |}.

(** The subject owes half a unit. *)
Definition in_debt : answers :=
  {| tokenInfo := tokenInfo all_well;
     account := Normal (Item [("Balance", VNum (-0.5))]);
     upstream := upstream all_well;
     logged := logged all_well;
     deducted := deducted all_well |}.

(** The item of the subject has no [Balance] attribute. *)
Definition no_balance_attribute : answers :=
  {| tokenInfo := tokenInfo all_well;
     account := Normal (Item []);
     upstream := upstream all_well;
     logged := logged all_well;
     deducted := deducted all_well |}.

(** The upstream answers 200 with a page that is not JSON. *)
Definition html_body : answers :=
  {| tokenInfo := tokenInfo all_well;
     account := account all_well;
     upstream := Ended 200 [bytes "<html>"];
     logged := logged all_well;
     deducted := deducted all_well |}.

(** The transactions table refuses the record. *)
Definition log_rejected : answers :=
  {| tokenInfo := tokenInfo all_well;
     account := account all_well;
     upstream := upstream all_well;
     logged := Abrupt (new_Error "Throughput exceeds the current capacity of your table");
     deducted := deducted all_well |}.

(** The upstream answers with the completion spaced out. *)
Definition pretty_printed : answers :=
  {| tokenInfo := tokenInfo all_well;
     account := account all_well;
     upstream := Ended 200 [bytes spaced_text];
     logged := logged all_well;
     deducted := deducted all_well |}.

(** The response starts and the connection closes before its end. *)
Definition cut_off : answers :=
  {| tokenInfo := tokenInfo all_well;
     account := account all_well;
     upstream := Unfinished 200 [bytes "{"];
     logged := logged all_well;
     deducted := deducted all_well |}.

(** The identity provider rejects the token. *)
Definition token_rejected : answers :=
  {| tokenInfo := Abrupt (new_Error "invalid_token");
     account := account all_well;
     upstream := upstream all_well;
     logged := logged all_well;
     deducted := deducted all_well |}.

(** The accounts table cannot be read. *)
Definition account_unreachable : answers :=
  {| tokenInfo := tokenInfo all_well;
     account := Abrupt (new_Error "Requested resource not found");
     upstream := upstream all_well;
     logged := logged all_well;
     deducted := deducted all_well |}.

(** The upstream answers 500. *)
Definition upstream_down : answers :=
  {| tokenInfo := tokenInfo all_well;
     account := account all_well;
     upstream := Ended 500 [bytes "Internal "; bytes "Server Error"];
     logged := logged all_well;
     deducted := deducted all_well |}.

(** The accounts table refuses the update. *)
Definition deduction_rejected : answers :=
  {| tokenInfo := tokenInfo all_well;
     account := account all_well;
     upstream := upstream all_well;
     logged := logged all_well;
     deducted := Abrupt (new_Error "The conditional request failed") |}.

(** The verified token carries no audience. *)
Definition no_audience : answers :=
  {| tokenInfo := Normal (VObj [("email", VStr "ada@example.com")]);
     account := account all_well;
     upstream := upstream all_well;
     logged := logged all_well;
     deducted := deducted all_well |}.

(** An event without the header, one with another scheme, and one whose
    header is a single word. *)
Definition request_without_header : value :=
  VObj [ ("headers", VObj []); ("body", VStr "{}") ].

Definition request_basic : value :=
  VObj [ ("headers", VObj [("authorization", VStr "Basic ya29.token")]);
         ("body", VStr "{}") ].

Definition request_three_words : value :=
  VObj [ ("headers",
          VObj [("authorization", VStr "Bearer ya29.token and more")]);
         ("body", VStr "{}") ].

Definition request_one_word : value :=
  VObj [ ("headers", VObj [("authorization", VStr "ya29.token")]);
         ("body", VStr "{}") ].

(** The key of the account read and the record of the all-well scenario. *)
Definition account_key : value :=
  VObj [ ("TableName", VStr "UserAccountData");
         ("Key", VObj [("UserID", VStr "ada@example.com")]) ].

Definition record : value :=
  VObj [ ("TableName", VStr "TransactionData");
         ("Item",
          VObj [ ("TransactionID", VStr "txn-1700000001500");
                 ("UserID", VStr "ada@example.com");
                 ("Model", VStr "gpt-3.5-turbo");
                 ("ReqTokens", VNum 100);
                 ("ResTokens", VNum 50);
                 ("Duration", VNum 1.5) ]) ].

(** The options of the upstream request under the sample key. *)
Definition requestOptions : value :=
  VObj [ ("method", VStr "POST");
         ("headers",
          VObj [ ("Content-Type", VStr "application/json");
                 ("Authorization", VStr "Bearer sk-test") ]) ].

Definition request : value :=
  VObj [ ("headers", VObj [("authorization", VStr "Bearer ya29.token")]);
         ("body", VStr "{}") ].

(** The other collaborators of the ledger scenarios: only the console is
    called. *)
Definition silent : forall X, call X -> X :=
  fun X c =>
    match c in call T return T with
    | Date_now => 1700000000000%float
    | client_getTokenInfo _ => Abrupt (new_Error "unreachable")
    | dynamoDB_get _ => Abrupt (new_Error "unreachable")
    | dynamoDB_put _ => Abrupt (new_Error "unreachable")
    | dynamoDB_update _ => Abrupt (new_Error "unreachable")
    | https_request _ _ _ => Errored (new_Error "unreachable")
    | console_log _ => tt
    | console_error _ => tt
    end.

End Sample.

Section Engine.

(** ** Coercions of the language

    The conversions of strings to numbers, of numbers to strings, and of
    arrays and objects to primitives (which runs their [valueOf] and
    [toString] and may throw) belong to the engine.  They are taken as
    given; the program is embedded over any such engine. *)
Variable StringToNumber : string -> float.
Variable NumberToString : float -> string.
Variable ToPrimitive : hint -> value -> completion value.

(** [JSON.parse] (which throws a [SyntaxError] on malformed text) and
    [JSON.stringify] are built-ins as well. *)
Variable JSON_parse : string -> completion value.
Variable JSON_stringify : value -> value.

(** [process.env.GOOGLE_CLIENT_ID] and [process.env.OPENAI_KEY]: a string,
    or [undefined] when the variable is not set. *)
Variable env_GOOGLE_CLIENT_ID : option string.
Variable env_OPENAI_KEY : option string.

(** Node.js: [chunk.toString()] of a buffer, which decodes its bytes as
    UTF-8 on their own, and the test [http] applies to the value of a
    header before a request is made. *)
Variable Buffer_toString : Buffer -> string.
Variable valid_header_value : string -> bool.

(** The document client writes a JavaScript number as a DynamoDB decimal
    (NaN and the infinities have none) and reads it back. *)
Variable marshal : float -> option Qc.
Variable unmarshal : Qc -> float.

Local Open Scope completion_scope.

Definition ToNumber_primitive (v : value) : completion float :=
  match v with
  | VUndefined => Normal PrimFloat.nan
  | VNull => Normal 0%float
  | VBool true => Normal 1%float
  | VBool false => Normal 0%float
  | VNum x => Normal x
  | VStr s => Normal (StringToNumber s)
  | VArr _ | VObj _ | VNative _ =>
      Abrupt (TypeError "Cannot convert object to primitive value")
  end.

Definition ToNumber (v : value) : completion float :=
  match v with
  | VArr _ | VObj _ | VNative _ =>
      p <-- ToPrimitive hint_number v ;; ToNumber_primitive p
  | _ => ToNumber_primitive v
  end.

Definition ToString_primitive (v : value) : completion string :=
  match v with
  | VUndefined => Normal "undefined"
  | VNull => Normal "null"
  | VBool true => Normal "true"
  | VBool false => Normal "false"
  | VNum x => Normal (NumberToString x)
  | VStr s => Normal s
  | VArr _ | VObj _ | VNative _ =>
      Abrupt (TypeError "Cannot convert object to primitive value")
  end.

Definition ToString (v : value) : completion string :=
  match v with
  | VArr _ | VObj _ | VNative _ =>
      p <-- ToPrimitive hint_string v ;; ToString_primitive p
  | _ => ToString_primitive v
  end.

(** [a / b] and [a * b]: both operands are converted, left first. *)
Definition divide (a b : value) : completion float :=
  x <-- ToNumber a ;; y <-- ToNumber b ;; Normal (x / y)%float.

Definition multiply (a b : value) : completion float :=
  x <-- ToNumber a ;; y <-- ToNumber b ;; Normal (x * y)%float.

(** [a < n] against a number literal [n]: a comparison with NaN is false. *)
Definition less_than (a : value) (n : float) : completion bool :=
  x <-- ToNumber a ;; Normal (PrimFloat.ltb x n).

(** ** The pricing table and the price of a response *)

Definition modelPrice : value :=
  VObj
    [ ("gpt-4",
       VObj [("input", VNum 0.03); ("output", VNum 0.06)]);
      ("gpt-4o",
       VObj [("input", VNum 0.00250); ("c_input", VNum 0.00125);
             ("output", VNum 0.01000)]);
      ("gpt-4o-mini",
       VObj [("input", VNum 0.000150); ("c_input", VNum 0.075);
             ("output", VNum 0.0006)]);
      ("gpt-4-turbo",
       VObj [("input", VNum 0.01); ("output", VNum 0.03)]);
      ("gpt-3.5-turbo",
       VObj [("input", VNum 0.0015); ("output", VNum 0.002)]) ].

(** [o[k]]: the key is converted to a string first. *)
Definition index (o k : value) : completion value :=
  key <-- ToString k ;; get o key.

Definition getTransactionPrice (response : value) : completion float :=
  entry <-- index modelPrice (opt_get response "model") ;;
  let inputPrice := or_else (opt_get entry "input") (VNum 0) in
  entry' <-- index modelPrice (opt_get response "model") ;;
  let outputPrice := or_else (opt_get entry' "output") (VNum 0) in
  q <-- divide (opt_get (opt_get response "usage") "prompt_tokens") (VNum 1000) ;;
  promptPrice <-- multiply (VNum q) inputPrice ;;
  q' <-- divide (opt_get (opt_get response "usage") "completion_tokens") (VNum 1000) ;;
  completionPrice <-- multiply (VNum q') outputPrice ;;
  Normal (promptPrice + completionPrice + 0.00000213)%float.


(** ** The functions of [index.js] *)

Definition OPENAI_URL : string := "https://api.openai.com/v1/chat/completions".

Definition env (v : option string) : value :=
  match v with
  | Some s => VStr s
  | None => VUndefined
  end.

Definition CLIENT_ID : value := env env_GOOGLE_CLIENT_ID.
Definition OPENAI_KEY : value := env env_OPENAI_KEY.

(** The value an invocation returns: [{ statusCode, body }]. *)
Record result : Type := { statusCode : Z; body : value }.

Definition returnHTTP (status : Z) (message : string) : result :=
  {| statusCode := status;
     body := JSON_stringify (VObj [("message", VStr message); ("error", VStr "")]) |}.

(** [data += chunk] for every ['data'] event, starting from ['']: each
    chunk is a buffer, converted to a string when it is appended. *)
Definition collect (chunks : list Buffer) : string :=
  fold_left (fun data chunk => data ++ Buffer_toString chunk) chunks "".

Definition makeOpenAIRequest (body : value) : prog value :=
  (bearer <- eval (ToString OPENAI_KEY) ;;
   let requestOptions :=
     VObj [ ("method", VStr "POST");
            ("headers",
             VObj [ ("Content-Type", VStr "application/json");
                    ("Authorization", VStr ("Bearer " ++ bearer)) ]) ] in
   if negb (valid_header_value ("Bearer " ++ bearer))
   then
     (* [https.request] refuses the header and throws: no request is made *)
     Throw (TypeError ("Invalid character in header content [" ++ dquote
                       ++ "Authorization" ++ dquote ++ "]"))
   else
   match body with
   | VStr text =>
       Do (https_request OPENAI_URL requestOptions text) (fun x =>
         match x with
         | Ended status chunks =>
             let data := collect chunks in
             if (PrimFloat.leb 200 status && PrimFloat.ltb status 300)%bool
             then in_listener (JSON_parse data)
             else Throw (new_Error ("Request failed with status code "
                                    ++ NumberToString status ++ ": " ++ data))
         | Errored error =>
             message <- in_listener (m <-- get error "message" ;; ToString m) ;;
             Throw (new_Error ("Request failed: " ++ message))
         | Unfinished _ _ =>
             (* neither [resolve] nor [reject] is ever called *)
             Hang
         end)
   | VNull =>
       (* [req.write] accepts a string or a buffer only; it throws before
          [req.end], so nothing is sent *)
       Throw (TypeError "May not write null values to stream")
   | _ =>
       (* the engine's message goes on with a description of the value *)
       Throw (TypeError ("The " ++ dquote ++ "chunk" ++ dquote ++
         " argument must be of type string or an instance of Buffer or Uint8Array"))
   end)%prog.

Definition logTransaction (transaction : value) : prog unit :=
  (now <- perform Date_now ;;
   userId <- eval (get transaction "userId") ;;
   model <- eval (get transaction "model") ;;
   reqTokens <- eval (get transaction "reqTokens") ;;
   resTokens <- eval (get transaction "resTokens") ;;
   duration <- eval (get transaction "duration") ;;
   let transactionParams :=
     VObj [ ("TableName", VStr "TransactionData");
            ("Item",
             VObj [ ("TransactionID", VStr ("txn-" ++ NumberToString now));
                    ("UserID", userId);
                    ("Model", model);
                    ("ReqTokens", reqTokens);
                    ("ResTokens", resTokens);
                    ("Duration", duration) ]) ] in
   _ <- await (dynamoDB_put transactionParams) ;;
   Ret tt)%prog.

Definition getDBUser (userId : value) : prog value :=
  let userParams :=
    VObj [ ("TableName", VStr "UserAccountData");
           ("Key", VObj [("UserID", userId)]) ] in
  await (dynamoDB_get userParams).

Definition deductUserBalance (userId : value) (amountToDeduct : value) : prog value :=
  let userParams :=
    VObj [ ("TableName", VStr "UserAccountData");
           ("Key", VObj [("UserID", userId)]);
           ("UpdateExpression", VStr "set Balance = Balance - :amount");
           ("ExpressionAttributeValues", VObj [(":amount", amountToDeduct)]);
           ("ReturnValues", VStr "UPDATED_NEW") ] in
  try_catch
    (result <- await (dynamoDB_update userParams) ;;
     attributes <- eval (get result "Attributes") ;;
     balance <- eval (get attributes "Balance") ;;
     perform (console_log [VStr "Updated balance:"; balance]) ;;
     attributes' <- eval (get result "Attributes") ;;
     eval (get attributes' "Balance"))%prog
    (fun error =>
       perform (console_error [VStr "Error deducting balance:"; error]) ;;
       Throw error)%prog.

(** [s.split(' ')] *)
Fixpoint split_space (s : string) : list string :=
  match s with
  | EmptyString => [EmptyString]
  | String c rest =>
      if Ascii.eqb c " "%char then EmptyString :: split_space rest
      else match split_space rest with
           | word :: words => String c word :: words
           | [] => [String c EmptyString]
           end
  end.

(** [v.split(' ')[1]]: only a string has a [split] method. *)
Definition split_1 (v : value) : completion value :=
  match v with
  | VStr s =>
      match split_space s with
      | _ :: second :: _ => Normal (VStr second)
      | _ => Normal VUndefined
      end
  | VUndefined =>
      Abrupt (TypeError "Cannot read properties of undefined (reading 'split')")
  | VNull =>
      Abrupt (TypeError "Cannot read properties of null (reading 'split')")
  | _ => Abrupt (TypeError "event.headers.authorization.split is not a function")
  end.

(** The pipeline inside the handler's [try]. *)
Definition pipeline (event : value) : prog result :=
  (startTime <- perform Date_now ;;
   headers <- eval (get event "headers") ;;
   authorization <- eval (get headers "authorization") ;;
   accessToken <- eval (split_1 authorization) ;;
   idToken <- await (client_getTokenInfo accessToken) ;;
   aud <- eval (get idToken "aud") ;;
   if negb (strict_equal aud CLIENT_ID)
   then Ret (returnHTTP 401 "Access token is not intended for this client")
   else
     email <- eval (get idToken "email") ;;
     dbUser <- getDBUser email ;;
     Item <- eval (get dbUser "Item") ;;
     if negb (ToBoolean Item)
     then Ret (returnHTTP 401 "User does not exist")
     else
       Balance <- eval (get Item "Balance") ;;
       indebted <- eval (less_than Balance 0) ;;
       if indebted : bool
       then Ret (returnHTTP 402 "User has insufficient balance")
       else
         payload <- eval (get event "body") ;;
         response <- makeOpenAIRequest payload ;;
         endTime <- perform Date_now ;;
         email' <- eval (get idToken "email") ;;
         let transaction :=
           VObj [ ("userId", email');
                  ("model", opt_get response "model");
                  ("resTokens", opt_get (opt_get response "usage") "completion_tokens");
                  ("reqTokens", opt_get (opt_get response "usage") "prompt_tokens");
                  ("duration", VNum ((endTime - startTime) / 1000)%float) ] in
         logTransaction transaction ;;
         transactionPrice <- eval (getTransactionPrice response) ;;
         email'' <- eval (get idToken "email") ;;
         deductUserBalance email'' (VNum transactionPrice) ;;
         Ret {| statusCode := 200; body := JSON_stringify response |})%prog.

Definition handler (event : value) : prog result :=
  try_catch (pipeline event)
    (fun err =>
       message <- eval (get err "message") ;;
       Ret {| statusCode := 401;
              body := JSON_stringify
                        (VObj [("message", VStr "Token is invalid");
                               ("error", message)]) |})%prog.

(** One invocation of the handler in the environment [w]. *)
Definition invoke (w : world) (event : value) : outcome result * list effect :=
  run w (handler event) [].

(** ** The cost calculator as the specification states it *)

(** Rates per 1000 tokens (input, output); a model that is not listed has
    rate zero on both sides. *)
Definition rates (model : string) : float * float :=
  if String.eqb "gpt-4" model then (0.03, 0.06)%float
  else if String.eqb "gpt-4o" model then (0.0025, 0.01)%float
  else if String.eqb "gpt-4o-mini" model then (0.00015, 0.0006)%float
  else if String.eqb "gpt-4-turbo" model then (0.01, 0.03)%float
  else if String.eqb "gpt-3.5-turbo" model then (0.0015, 0.002)%float
  else (0, 0)%float.

Definition fixedSurcharge : float := 0.00000213%float.

Definition price (model : string) (prompt_tokens completion_tokens : float) : float :=
  ((prompt_tokens / 1000) * fst (rates model)
   + (completion_tokens / 1000) * snd (rates model)
   + fixedSurcharge)%float.

(** [v < 0] is true, as the language defines the comparison: of a number
    below zero, of a string that reads as such a number, and of an object
    whose primitive value is one of these.  [undefined], [null] and the
    booleans are never below zero. *)
Inductive below_zero : value -> Prop :=
| below_number x :
    PrimFloat.ltb x 0 = true -> below_zero (VNum x)
| below_string s :
    PrimFloat.ltb (StringToNumber s) 0 = true -> below_zero (VStr s)
| below_object v p :
    primitive v = false ->
    ToPrimitive hint_number v = Normal p ->
    primitive p = true ->
    below_zero p ->
    below_zero v.

(** A response as the data model describes it. *)
Definition completion_response
    (model : string) (prompt_tokens completion_tokens : float) : value :=
  VObj [ ("model", VStr model);
         ("usage", VObj [ ("prompt_tokens", VNum prompt_tokens);
                          ("completion_tokens", VNum completion_tokens) ]) ].

(** The rows of the table in the source. *)
Definition listed (model : string) : Prop :=
  exists entry, In (model, entry) (match modelPrice with VObj rows => rows | _ => [] end).

(** ** The accounts table under concurrent invocations

    Invocations run in separate processes.  What they share is the accounts
    table, and a scheduler decides whose next call reaches the store
    first. *)

Definition ledger : Type := gmap string Qc.

Definition ValidationException : value :=
  VObj [ ("message", VStr "The provided expression refers to an attribute that does not exist in the item");
         ("code", VStr "ValidationException") ].

(** Modelled from the spec: the accounts table of the external store, which
    is no part of the source.  It is keyed by subject, holds a numeric
    [Balance], and decrements by key in one step of its own.  An update
    for a subject without an item, with an amount that is no decimal, or
    with another expression is refused and changes nothing. *)
Definition ledger_update (params : value) (l : ledger) : completion value * ledger :=
  match member params "TableName",
        member params "UpdateExpression",
        member (member params "Key") "UserID",
        member (member params "ExpressionAttributeValues") ":amount" with
  | VStr table, VStr expression, VStr user, VNum amount =>
      if (String.eqb table "UserAccountData"
          && String.eqb expression "set Balance = Balance - :amount")%bool
      then
        match l !! user, marshal amount with
        | Some balance, Some q =>
            let updated := (balance - q)%Qc in
            (Normal (VObj [("Attributes", VObj [("Balance", VNum (unmarshal updated))])]),
             <[user := updated]> l)
        | _, _ => (Abrupt ValidationException, l)
        end
      else (Abrupt ValidationException, l)
  | _, _, _, _ => (Abrupt ValidationException, l)
  end.

(** The other collaborators answer as they please and leave the table
    alone. *)
Definition serve (others : forall X, call X -> X) {X} (c : call X) (l : ledger) : X * ledger :=
  match c in call T return T * ledger with
  | dynamoDB_update params => ledger_update params l
  | c' => (others _ c', l)
  end.

(** One invocation alone. *)
Fixpoint finish {A} (others : forall X, call X -> X) (p : prog A) (l : ledger) : outcome A * ledger :=
  match p with
  | Ret a => (Returned a, l)
  | Throw e => (Rejected e, l)
  | Escape e => (Uncaught e, l)
  | Hang => (Unsettled, l)
  | Do c k => let '(x, l') := serve others c l in finish others (k x) l'
  end.

(** Two invocations in flight.  [true] lets the first one make its next
    call, [false] the second; the turn of an invocation that has ended
    passes, and when the schedule is used up the first runs to its end, then
    the second. *)
Fixpoint interleave {A} (others : forall X, call X -> X) (schedule : list bool)
    (p q : prog A) (l : ledger) : outcome A * outcome A * ledger :=
  match schedule with
  | [] =>
      let '(a, l1) := finish others p l in
      let '(b, l2) := finish others q l1 in
      (a, b, l2)
  | true :: rest =>
      match p with
      | Do c k => let '(x, l') := serve others c l in interleave others rest (k x) q l'
      | _ => interleave others rest p q l
      end
  | false :: rest =>
      match q with
      | Do c k => let '(x, l') := serve others c l in interleave others rest p (k x) l'
      | _ => interleave others rest p q l
      end
  end.

(** The request [deductUserBalance] sends. *)
Definition deduction (userId amountToDeduct : value) : value :=
  VObj [ ("TableName", VStr "UserAccountData");
         ("Key", VObj [("UserID", userId)]);
         ("UpdateExpression", VStr "set Balance = Balance - :amount");
         ("ExpressionAttributeValues", VObj [(":amount", amountToDeduct)]);
         ("ReturnValues", VStr "UPDATED_NEW") ].

Definition is_update {X} (c : call X) : bool :=
  match c with
  | dynamoDB_update _ => true
  | _ => false
  end.

(** A program that sends no update request. *)
Fixpoint quiet {A} (p : prog A) : Prop :=
  match p with
  | Do c k => is_update c = false /\ forall x, quiet (k x)
  | _ => True
  end.

(** ** Vocabulary of the properties *)

(** A 2xx status. *)
Definition successful (status : float) : bool :=
  PrimFloat.leb 200 status && PrimFloat.ltb status 300.

(** A request to one of the tables. *)
Definition is_store (x : effect) : bool :=
  match x with
  | AccountRead _ _ | LogWrite _ _ | LedgerUpdate _ _ => true
  | _ => false
  end.

(** A call to the identity provider. *)
Definition is_token_check (x : effect) : bool :=
  match x with TokenInfo _ _ => true | _ => false end.

(** A string without a space. *)
Fixpoint spaceless (s : string) : bool :=
  match s with
  | EmptyString => true
  | String c rest => negb (Ascii.eqb c " "%char) && spaceless rest
  end.

(** A record that the transactions table accepted. *)
Definition is_written (x : effect) : bool :=
  match x with
  | LogWrite _ (Normal _) => true
  | _ => false
  end.

(** A call to a collaborator whose promise rejected with [e]. *)
Definition failed_call (e : value) (x : effect) : Prop :=
  match x with
  | TokenInfo _ (Abrupt e')
  | AccountRead _ (Abrupt e')
  | LogWrite _ (Abrupt e')
  | LedgerUpdate _ (Abrupt e') => e' = e
  | _ => False
  end.

(** What the handler's [catch] returns for an exception whose [message]
    is [error]. *)
Definition token_is_invalid (error : value) : result :=
  {| statusCode := 401;
     body := JSON_stringify
               (VObj [("message", VStr "Token is invalid"); ("error", error)]) |}.

(** * Properties *)

(** ** Pricing *)

Lemma rates_unlisted model :
  ~ listed model -> rates model = (0, 0)%float.
Proof.
  intros H. unfold rates.
  repeat match goal with
  | |- context [String.eqb ?k model] =>
      destruct (String.eqb_spec k model) as [<-|_];
      [ exfalso; apply H; eexists; simpl; eauto 10 | ]
  end.
  reflexivity.
Qed.

Lemma getTransactionPrice_typed response model prompt_tokens completion_tokens :
  opt_get response "model" = VStr model ->
  opt_get (opt_get response "usage") "prompt_tokens" = VNum prompt_tokens ->
  opt_get (opt_get response "usage") "completion_tokens" = VNum completion_tokens ->
  getTransactionPrice response = Normal (price model prompt_tokens completion_tokens).
Proof.
  intros Hm Hp Hc. unfold getTransactionPrice, price, rates.
  rewrite Hm, Hp, Hc.
  cbv [index ToString ToString_primitive cbind get member modelPrice own_property].
  repeat match goal with
  | |- context [String.eqb ?k model] =>
      destruct (String.eqb k model); [ reflexivity | ]
  end.
  unfold inherited.
  destruct (existsb (String.eqb model) Object_prototype); reflexivity.
Qed.

Lemma getTransactionPrice_depends_on response response' :
  opt_get response "model" = opt_get response' "model" ->
  opt_get (opt_get response "usage") "prompt_tokens"
    = opt_get (opt_get response' "usage") "prompt_tokens" ->
  opt_get (opt_get response "usage") "completion_tokens"
    = opt_get (opt_get response' "usage") "completion_tokens" ->
  getTransactionPrice response = getTransactionPrice response'.
Proof. intros Hm Hp Hc. unfold getTransactionPrice. rewrite Hm, Hp, Hc. reflexivity. Qed.

(** C1. For a completion response with a model name and numeric token
    counts, the price is [(prompt_tokens/1000) * inputRate +
    (completion_tokens/1000) * outputRate + 0.00000213] in binary64
    arithmetic, where a model that the pricing table does not list has
    both rates zero, also when its name is a property every object
    inherits.  The price of gpt-4 for 1000 and 1000 tokens is 0.09000213,
    that of an unknown model for 500 and 500 tokens is 0.00000213, and the
    price depends on the response through the model and the two token
    counts only. *)
Theorem price_formula :
  (forall response model prompt_tokens completion_tokens,
     opt_get response "model" = VStr model ->
     opt_get (opt_get response "usage") "prompt_tokens" = VNum prompt_tokens ->
     opt_get (opt_get response "usage") "completion_tokens" = VNum completion_tokens ->
     getTransactionPrice response
       = Normal ((prompt_tokens / 1000) * fst (rates model)
                 + (completion_tokens / 1000) * snd (rates model)
                 + 0.00000213)%float) /\
  (forall model, ~ listed model -> rates model = (0, 0)%float) /\
  getTransactionPrice (completion_response "gpt-4" 1000 1000)
    = Normal 0.09000213%float /\
  getTransactionPrice (completion_response "unknown-model" 500 500)
    = Normal 0.00000213%float /\
  (forall response response',
     opt_get response "model" = opt_get response' "model" ->
     opt_get (opt_get response "usage") "prompt_tokens"
       = opt_get (opt_get response' "usage") "prompt_tokens" ->
     opt_get (opt_get response "usage") "completion_tokens"
       = opt_get (opt_get response' "usage") "completion_tokens" ->
     getTransactionPrice response = getTransactionPrice response').
Proof.
  split; [ exact getTransactionPrice_typed | ].
  split; [ exact rates_unlisted | ].
  split; [ reflexivity | ].
  split; [ reflexivity | exact getTransactionPrice_depends_on ].
Qed.

(** C7.  The source divides [undefined] by 1000 when the response has no
    [usage]: both token prices are NaN, and so is the price, for a listed
    and for an unlisted model.  The price is not the fixed surcharge. *)
Theorem missing_usage_price_is_NaN response key :
  opt_get response "usage" = VUndefined ->
  ToString (opt_get response "model") = Normal key ->
  getTransactionPrice response = Normal PrimFloat.nan /\
  getTransactionPrice response <> Normal fixedSurcharge.
Proof.
  intros Hu Hk.
  assert (E : getTransactionPrice response = Normal PrimFloat.nan).
  { unfold getTransactionPrice. rewrite Hu. unfold index. rewrite Hk.
    cbv [cbind get member modelPrice own_property].
    repeat match goal with
    | |- context [String.eqb ?k key] =>
        destruct (String.eqb k key); [ reflexivity | ]
    end.
    unfold inherited.
    destruct (existsb (String.eqb key) Object_prototype); reflexivity. }
  split; [ exact E | ].
  rewrite E. intros N.
  assert (F : PrimFloat.is_nan PrimFloat.nan = PrimFloat.is_nan fixedSurcharge)
    by congruence.
  vm_compute in F. discriminate F.
Qed.

Lemma ToNumber_primitive_total v :
  primitive v = true -> exists x, ToNumber v = Normal x.
Proof.
  destruct v as [| |[]| | | | |]; simpl; intros H; try discriminate; eauto.
Qed.

Lemma ToString_primitive_total v :
  primitive v = true -> exists s, ToString v = Normal s.
Proof.
  destruct v as [| |[]| | | | |]; simpl; intros H; try discriminate; eauto.
Qed.

Lemma rate_is_number key :
  exists i o,
    or_else (opt_get (member modelPrice key) "input") (VNum 0) = VNum i /\
    or_else (opt_get (member modelPrice key) "output") (VNum 0) = VNum o.
Proof.
  cbv [member modelPrice own_property].
  repeat match goal with
  | |- context [String.eqb ?k key] =>
      destruct (String.eqb k key); [ do 2 eexists; split; reflexivity | ]
  end.
  unfold inherited.
  destruct (existsb (String.eqb key) Object_prototype);
    do 2 eexists; split; reflexivity.
Qed.

(** X18. Pricing raises no exception when the model name and the token
    counts are primitives. *)
Lemma getTransactionPrice_total response :
  primitive (opt_get response "model") = true ->
  primitive (opt_get (opt_get response "usage") "prompt_tokens") = true ->
  primitive (opt_get (opt_get response "usage") "completion_tokens") = true ->
  exists transactionPrice, getTransactionPrice response = Normal transactionPrice.
Proof.
  intros Hm Hp Hc. unfold getTransactionPrice, index.
  destruct (ToString_primitive_total _ Hm) as [key ->].
  destruct (ToNumber_primitive_total _ Hp) as [p Ep].
  destruct (ToNumber_primitive_total _ Hc) as [c Ec].
  cbn [cbind get modelPrice]. fold modelPrice.
  destruct (rate_is_number key) as (i & o & -> & ->).
  unfold divide, multiply. rewrite Ep, Ec. simpl. eauto.
Qed.

(** ** Symbolic execution of an invocation *)

Lemma strict_equal_env a (v : option string) :
  strict_equal a (env v) = true <-> a = env v.
Proof.
  destruct v as [s|], a; simpl; split; try congruence.
  - intros H. apply String.eqb_eq in H. congruence.
  - intros H. injection H as ->. apply String.eqb_refl.
Qed.

Lemma not_nullish_get v k : nullish v = false -> get v k = Normal (member v k).
Proof. destruct v; simpl; congruence. Qed.

Lemma truthy_not_nullish v : ToBoolean v = true -> nullish v = false.
Proof. destruct v; simpl; congruence. Qed.

(** The expression the program [p] is waiting on. *)
Ltac scrutinee p :=
  lazymatch p with
  | bind ?q _ => scrutinee q
  | try_catch ?q _ => scrutinee q
  | eval ?c => c
  | in_listener ?c => c
  | (if ?b then _ else _) => b
  | (match ?x with
     | Ended _ _ => _ | Errored _ => _ | Unfinished _ _ => _
     end) => x
  | (match ?x with
     | VUndefined => _ | VNull => _ | VBool _ => _ | VNum _ => _
     | VStr _ => _ | VArr _ => _ | VObj _ => _ | VNative _ => _
     end) => x
  end.

(** Runs the program in [H : run w p past = _] to its end, splitting on
    every answer and every test in program order. *)
Lemma ToString_OPENAI_KEY :
  ToString OPENAI_KEY = Normal (default "undefined" env_OPENAI_KEY).
Proof. unfold OPENAI_KEY. destruct env_OPENAI_KEY; reflexivity. Qed.

Ltac exec_in H :=
  repeat
    first
      [ rewrite ToString_OPENAI_KEY in H
      | progress
          cbn [run bind try_catch eval in_listener await perform observe app
               get member own_property new_Error TypeError
               String.eqb Ascii.eqb Bool.eqb] in H
      | progress
          unfold getDBUser, logTransaction, deductUserBalance,
            makeOpenAIRequest in H
      | lazymatch type of H with
        | run _ ?p _ = _ => let c := scrutinee p in destruct c eqn:?
        end ].

(** Finds the events of a known trace that an [In] hypothesis can be. *)
Ltac pin Hin :=
  simpl in Hin;
  repeat (destruct Hin as [Hin|Hin]; [ try discriminate Hin | ]);
  try contradiction.

(** ** Guards *)

(** C6. When the verified token's audience differs from the configured
    client identifier, the invocation returns statusCode 401, with the
    message that the token is not intended for this client, and has read
    no account, called no upstream, written no log record and updated no
    balance. *)
Theorem audience_mismatch_rejected w event o trace accessToken idToken :
  invoke w event = (o, trace) ->
  In (TokenInfo accessToken (Normal idToken)) trace ->
  nullish idToken = false ->
  member idToken "aud" <> CLIENT_ID ->
  o = Returned {| statusCode := 401;
                  body := JSON_stringify
                            (VObj [ ("message", VStr "Access token is not intended for this client");
                                    ("error", VStr "") ]) |} /\
  filter is_account_read trace = [] /\
  no_side_effect trace.
Proof.
  intros H Hin Hn Haud. unfold invoke, handler, pipeline in H.
  exec_in H; simplify_eq; pin Hin; simplify_eq.
  all: rewrite ?(not_nullish_get _ _ Hn) in *; simplify_eq.
  all: try match goal with
       | E : negb (strict_equal _ _) = false |- _ =>
           apply negb_false_iff, strict_equal_env in E; contradiction
       end.
  repeat split; reflexivity.
Qed.

Lemma member_not_undefined v k : member v k <> VUndefined -> nullish v = false.
Proof. destruct v; simpl; congruence. Qed.

Lemma truthy_member v k : ToBoolean (member v k) = true -> nullish v = false.
Proof.
  intros H. apply (member_not_undefined v k). intros E. rewrite E in H.
  discriminate.
Qed.

(** C5. When the accounts table has no item for the authenticated subject,
    the invocation returns statusCode 401, with the message that the user
    does not exist, and has called no upstream, written no log record and
    updated no balance.  (The account is read only after the token was
    verified for this client.) *)
Theorem missing_account_rejected w event o trace params dbUser :
  invoke w event = (o, trace) ->
  In (AccountRead params (Normal dbUser)) trace ->
  nullish dbUser = false ->
  member dbUser "Item" = VUndefined ->
  o = Returned {| statusCode := 401;
                  body := JSON_stringify
                            (VObj [ ("message", VStr "User does not exist");
                                    ("error", VStr "") ]) |} /\
  no_side_effect trace.
Proof.
  intros H Hin Hn Hitem. unfold invoke, handler, pipeline in H.
  exec_in H; simplify_eq; pin Hin; simplify_eq.
  all: rewrite ?(not_nullish_get _ _ Hn) in *; simplify_eq.
  all: try match goal with
       | E : negb (ToBoolean _) = false |- _ => rewrite Hitem in E; discriminate
       end.
  repeat split; reflexivity.
Qed.

(** C4. When the account of the authenticated subject exists with a
    balance below zero, the invocation returns statusCode 402 and has
    called no upstream, written no log record and updated no balance. *)
Theorem negative_balance_rejected w event o trace params dbUser balance :
  invoke w event = (o, trace) ->
  In (AccountRead params (Normal dbUser)) trace ->
  ToBoolean (member dbUser "Item") = true ->
  member (member dbUser "Item") "Balance" = VNum balance ->
  PrimFloat.ltb balance 0 = true ->
  o = Returned {| statusCode := 402;
                  body := JSON_stringify
                            (VObj [ ("message", VStr "User has insufficient balance");
                                    ("error", VStr "") ]) |} /\
  no_side_effect trace.
Proof.
  intros H Hin Hitem Hbal Hneg. unfold invoke, handler, pipeline in H.
  pose proof (truthy_member _ _ Hitem) as Hn.
  pose proof (truthy_not_nullish _ Hitem) as Hn'.
  exec_in H; simplify_eq; pin Hin; simplify_eq.
  all: rewrite ?(not_nullish_get _ _ Hn) in *; simplify_eq.
  all: rewrite ?(not_nullish_get _ _ Hn') in *; simplify_eq.
  all: try match goal with
       | E : negb (ToBoolean _) = true |- _ => rewrite Hitem in E; discriminate
       end.
  all: try match goal with
       | E : less_than _ _ = _ |- _ =>
           rewrite Hbal in E; cbn in E; rewrite Hneg in E; discriminate
       end.
  repeat split; reflexivity.
Qed.

Lemma less_than_below_zero v :
  less_than v 0 = Normal true <-> below_zero v.
Proof.
  assert (Hp : forall p, primitive p = true ->
                 ToNumber_primitive p = ToNumber p).
  { intros p. destruct p; simpl; congruence. }
  assert (Hprim : forall p, primitive p = true ->
            (x <-- ToNumber_primitive p ;; Normal (PrimFloat.ltb x 0))%completion
              = Normal true -> below_zero p).
  { intros p _ H.
    destruct p as [| |[]|x|s| | |]; cbn in H; simplify_eq;
      try (vm_compute in H; discriminate H).
    - apply below_number. congruence.
    - apply below_string. congruence. }
  split.
  - intros H. unfold less_than in H.
    destruct (primitive v) eqn:Pv.
    + apply Hprim; [ exact Pv | ]. rewrite (Hp v Pv). exact H.
    + assert (E : ToNumber v = (p <-- ToPrimitive hint_number v ;;
                                ToNumber_primitive p)%completion)
        by (destruct v; simpl in Pv; try discriminate Pv; reflexivity).
      rewrite E in H.
      destruct (ToPrimitive hint_number v) as [p|e] eqn:Ev; cbn in H;
        [ | discriminate H ].
      destruct (primitive p) eqn:Pp.
      * apply (below_object v p Pv Ev Pp). apply Hprim; assumption.
      * destruct p; simpl in Pp; try discriminate Pp; cbn in H; discriminate H.
  - intros H. induction H as [x Hx|s Hs|v p Pv Ev Pp Hb IH].
    + unfold less_than. cbn. rewrite Hx. reflexivity.
    + unfold less_than. cbn. rewrite Hs. reflexivity.
    + unfold less_than in *.
      assert (E : ToNumber v = (p <-- ToPrimitive hint_number v ;;
                                ToNumber_primitive p)%completion)
        by (destruct v; simpl in Pv; try discriminate Pv; reflexivity).
      rewrite E, Ev. cbn. rewrite (Hp p Pp). exact IH.
Qed.

Lemma admission_by_comparison w event o trace params dbUser :
  invoke w event = (o, trace) ->
  In (AccountRead params (Normal dbUser)) trace ->
  ToBoolean (member dbUser "Item") = true ->
  ((exists r, o = Returned r /\ statusCode r = 402%Z) <->
   less_than (member (member dbUser "Item") "Balance") 0 = Normal true) /\
  (member (member dbUser "Item") "Balance" = VUndefined ->
   forall text, member event "body" = VStr text ->
   valid_header_value ("Bearer " ++ default "undefined" env_OPENAI_KEY) = true ->
   exists answer,
     In (Upstream OPENAI_URL
           (VObj [ ("method", VStr "POST");
                   ("headers",
                    VObj [ ("Content-Type", VStr "application/json");
                           ("Authorization",
                            VStr ("Bearer "
                                  ++ default "undefined" env_OPENAI_KEY)) ]) ])
           text answer) trace).
Proof.
  intros H Hin Hitem. unfold invoke, handler, pipeline in H.
  pose proof (truthy_member _ _ Hitem) as Hn.
  pose proof (truthy_not_nullish _ Hitem) as Hn'.
  exec_in H; simplify_eq; pin Hin; simplify_eq.
  all: rewrite ?(not_nullish_get _ _ Hn) in *; simplify_eq.
  all: rewrite ?(not_nullish_get _ _ Hn') in *; simplify_eq.
  all: try match goal with
       | E : negb (ToBoolean _) = true |- _ => rewrite Hitem in E; discriminate
       end.
  all: match goal with
       | E : less_than _ _ = _ |- _ => rewrite E
       end.
  all: split;
    [ split;
      [ intros (r & Hr & Hs); simplify_eq; try discriminate Hs; try reflexivity
      | intros ?; simplify_eq; try (eexists; split; reflexivity) ]
    | intros Hb text Ht Hv ].
  all: try match goal with
       | E : less_than _ _ = _ |- _ => rewrite Hb in E; cbn in E; simplify_eq
       end.
  all: try match goal with
       | E : negb (valid_header_value _) = true |- _ =>
           rewrite Hv in E; discriminate E
       end.
  all: try match goal with
       | E : get ?ev "body" = _ |- _ =>
           assert (nullish ev = false) by (destruct ev; simpl in *; congruence);
           rewrite not_nullish_get in E by assumption; rewrite Ht in E; simplify_eq
       end.
  all: eexists; simpl; eauto 10.
Qed.

(** C10. For an authenticated subject whose account exists, the invocation
    returns statusCode 402 exactly when the [Balance] compares below zero:
    a number below zero, a string that reads as one, or an object whose
    primitive value is one of these.  For a number this is the test
    [balance < 0] of binary64.  An item without a [Balance] attribute is
    not refused with 402, and when the body of the event is a string and
    the configured key makes a header that Node.js accepts, the body is
    sent upstream. *)
Theorem admission_by_balance w event o trace params dbUser :
  invoke w event = (o, trace) ->
  In (AccountRead params (Normal dbUser)) trace ->
  ToBoolean (member dbUser "Item") = true ->
  ((exists r, o = Returned r /\ statusCode r = 402%Z) <->
   below_zero (member (member dbUser "Item") "Balance")) /\
  (forall balance, member (member dbUser "Item") "Balance" = VNum balance ->
     ((exists r, o = Returned r /\ statusCode r = 402%Z) <->
      PrimFloat.ltb balance 0 = true)) /\
  (member (member dbUser "Item") "Balance" = VUndefined ->
   (forall r, o = Returned r -> statusCode r <> 402%Z) /\
   forall text, member event "body" = VStr text ->
   valid_header_value ("Bearer " ++ default "undefined" env_OPENAI_KEY) = true ->
   exists answer,
     In (Upstream OPENAI_URL
           (VObj [ ("method", VStr "POST");
                   ("headers",
                    VObj [ ("Content-Type", VStr "application/json");
                           ("Authorization",
                            VStr ("Bearer "
                                  ++ default "undefined" env_OPENAI_KEY)) ]) ])
           text answer) trace).
Proof.
  intros H Hin Hitem.
  destruct (admission_by_comparison w event o trace params dbUser H Hin Hitem)
    as [Hiff Hup].
  rewrite less_than_below_zero in Hiff.
  split; [ exact Hiff | split ].
  - intros balance Hb. rewrite Hiff, Hb. split.
    + intros Hz. inversion Hz; subst; try assumption.
      discriminate.
    + apply below_number.
  - intros Hb. split.
    + intros r Hr Hs.
      assert (Hz : below_zero (member (member dbUser "Item") "Balance"))
        by (apply Hiff; eauto).
      rewrite Hb in Hz. inversion Hz. discriminate.
    + exact (Hup Hb).
Qed.

(** ** After admission *)

(** C8, as the code has it.  When the upstream answers 2xx with a body
    that parses and the ledger update succeeds (which it is only asked to
    do after authentication, admission and the log write succeeded), the
    invocation returns statusCode 200 and its body is [JSON.stringify] of
    the value [JSON.parse] gave for the collected body.  The handler does
    not change that value, but the text is written anew: the body is the
    text the upstream sent exactly when writing the parsed value gives
    that text back. *)
Theorem success_returns_upstream_response
    w event o trace url options text status chunks response params updated :
  invoke w event = (o, trace) ->
  In (Upstream url options text (Ended status chunks)) trace ->
  successful status = true ->
  JSON_parse (collect chunks) = Normal response ->
  In (LedgerUpdate params (Normal updated)) trace ->
  nullish updated = false ->
  nullish (member updated "Attributes") = false ->
  o = Returned {| statusCode := 200; body := JSON_stringify response |} /\
  (o = Returned {| statusCode := 200; body := VStr (collect chunks) |} <->
   JSON_stringify response = VStr (collect chunks)).
Proof.
  intros H Hup Hs Hparse Hin Hn Hn'. unfold invoke, handler, pipeline in H.
  unfold successful in Hs.
  assert (Ho : o = Returned {| statusCode := 200;
                               body := JSON_stringify response |}).
  { exec_in H; simplify_eq; pin Hin; simplify_eq; pin Hup; simplify_eq.
    all: rewrite ?(not_nullish_get _ _ Hn) in *; simplify_eq.
    all: rewrite ?(not_nullish_get _ _ Hn') in *; simplify_eq.
    all: congruence. }
  split; [ exact Ho | ].
  rewrite Ho. split.
  - intros E. injection E as E. exact E.
  - intros E. rewrite E. reflexivity.
Qed.

(** C3.  A 2xx upstream answer whose body is not JSON: [JSON.parse] throws
    inside the ['end'] listener, outside the promise and outside the
    handler's [try].  The invocation does not return a 401 response; the
    exception is uncaught.  (The failures that do reach the [catch] are
    the subject of [rejection_reported_as_401],
    [upstream_status_reported_as_401] and
    [transport_error_reported_as_401].) *)
Theorem unparsable_upstream_body_escapes
    w event o trace url options text status chunks e :
  invoke w event = (o, trace) ->
  In (Upstream url options text (Ended status chunks)) trace ->
  successful status = true ->
  JSON_parse (collect chunks) = Abrupt e ->
  o = Uncaught e.
Proof.
  intros H Hup Hs Hparse. unfold invoke, handler, pipeline in H.
  unfold successful in Hs.
  exec_in H; simplify_eq; pin Hup; simplify_eq.
  all: congruence.
Qed.

(** C2, as the code has it.  When the upstream call succeeded, exactly one
    log write was attempted.  When that write succeeded and pricing the
    response raised no exception, exactly one ledger update follows it and
    nothing else is written, whatever the answer to the update; its amount
    is the price.  Otherwise no ledger update is attempted. *)
Theorem log_write_precedes_deduction
    w event o trace url options text status chunks response :
  invoke w event = (o, trace) ->
  In (Upstream url options text (Ended status chunks)) trace ->
  successful status = true ->
  JSON_parse (collect chunks) = Normal response ->
  exists record written,
    filter is_log_write trace = [LogWrite record written] /\
    match written, getTransactionPrice response with
    | Normal _, Normal transactionPrice =>
        exists params answer,
          filter is_write trace =
            [LogWrite record written; LedgerUpdate params answer] /\
          member (member params "ExpressionAttributeValues") ":amount"
            = VNum transactionPrice
    | _, _ => filter is_ledger_update trace = []
    end.
Proof.
  intros H Hup Hs Hparse. unfold invoke, handler, pipeline in H.
  unfold successful in Hs.
  exec_in H; simplify_eq; pin Hup; simplify_eq.
  all: try congruence.
  all: match goal with
       | E : JSON_parse _ = Normal ?r |- _ =>
           rewrite Hparse in E; injection E as <-
       end.
  all: do 2 eexists; split; [ reflexivity | ].
  all: match goal with
       | E : getTransactionPrice _ = _ |- _ => rewrite E
       | _ => idtac
       end.
  all: try reflexivity.
  all: do 2 eexists; split; reflexivity.
Qed.

Lemma rejection_reported_as_401 w event o trace e x :
  invoke w event = (o, trace) ->
  In x trace -> failed_call e x ->
  nullish e = false ->
  o = Returned (token_is_invalid (member e "message")).
Proof.
  intros H Hin Hx Hn. unfold invoke, handler, pipeline in H.
  exec_in H; simplify_eq; pin Hin; simplify_eq; simpl in Hx; try contradiction.
  all: simplify_eq.
  all: rewrite ?(not_nullish_get _ _ Hn) in *; simplify_eq.
  all: reflexivity.
Qed.

Lemma upstream_status_reported_as_401
    w event o trace url options text status chunks :
  invoke w event = (o, trace) ->
  In (Upstream url options text (Ended status chunks)) trace ->
  successful status = false ->
  o = Returned (token_is_invalid
                  (VStr ("Request failed with status code "
                         ++ NumberToString status ++ ": " ++ collect chunks))).
Proof.
  intros H Hup Hs. unfold invoke, handler, pipeline in H.
  unfold successful in Hs.
  exec_in H; simplify_eq; pin Hup; simplify_eq.
  all: try congruence.
  all: reflexivity.
Qed.

Lemma transport_error_reported_as_401
    w event o trace url options text error message :
  invoke w event = (o, trace) ->
  In (Upstream url options text (Errored error)) trace ->
  (m <-- get error "message" ;; ToString m)%completion = Normal message ->
  o = Returned (token_is_invalid (VStr ("Request failed: " ++ message))).
Proof.
  intros H Hup Hm. unfold invoke, handler, pipeline in H.
  exec_in H; simplify_eq; pin Hup; simplify_eq.
  all: unfold token_is_invalid; congruence.
Qed.

(** ** Concurrent deductions *)

Lemma serve_quiet others {X} (c : call X) l :
  is_update c = false -> (serve others c l).2 = l.
Proof. destruct c; simpl; congruence. Qed.

Lemma finish_quiet {A} others (p : prog A) l :
  quiet p -> (finish others p l).2 = l.
Proof.
  revert l. induction p as [| | | |X c k IH]; intros l Hq; try reflexivity.
  destruct Hq as [Hc Hk]. simpl.
  pose proof (serve_quiet others c l Hc) as Hs.
  destruct (serve others c l) as [x l']. simpl in Hs. subst l'.
  apply IH, Hk.
Qed.

Lemma interleave_quiet_l {A} others schedule (p q : prog A) l :
  quiet p ->
  (interleave others schedule p q l).2 = (finish others q l).2.
Proof.
  revert p q l.
  induction schedule as [|[] schedule IH]; intros p q l Hp.
  - simpl. pose proof (finish_quiet others p l Hp) as Hf.
    destruct (finish others p l) as [a l1]. simpl in Hf. subst l1.
    destruct (finish others q l); reflexivity.
  - destruct p; try (simpl; apply IH; exact I).
    destruct Hp as [Hc Hk]. simpl.
    pose proof (serve_quiet others c l Hc) as Hs.
    destruct (serve others c l) as [x l']. simpl in Hs. subst l'.
    apply IH, Hk.
  - destruct q; try (simpl; apply IH; exact Hp).
    simpl. destruct (serve others c l) as [x l']. apply IH, Hp.
Qed.

Lemma interleave_quiet_r {A} others schedule (p q : prog A) l :
  quiet q ->
  (interleave others schedule p q l).2 = (finish others p l).2.
Proof.
  revert p q l.
  induction schedule as [|[] schedule IH]; intros p q l Hq.
  - simpl. destruct (finish others p l) as [a l1].
    pose proof (finish_quiet others q l1 Hq) as Hf.
    destruct (finish others q l1) as [b l2]. simpl in Hf. subst l2.
    reflexivity.
  - destruct p; try (simpl; apply IH; exact Hq).
    simpl. destruct (serve others c l) as [x l']. apply IH, Hq.
  - destruct q; try (simpl; apply IH; exact I).
    destruct Hq as [Hc Hk]. simpl.
    pose proof (serve_quiet others c l Hc) as Hs.
    destruct (serve others c l) as [x l']. simpl in Hs. subst l'.
    apply IH, Hk.
Qed.

(** Two invocations that each make one call and are quiet afterwards: the
    table ends as if one had run after the other. *)
Lemma interleave_one_call_each {A} others schedule {X Y}
    (c : call X) (k : X -> prog A) (d : call Y) (h : Y -> prog A) l :
  (forall x, quiet (k x)) ->
  (forall y, quiet (h y)) ->
  (interleave others schedule (Do c k) (Do d h) l).2
    = (serve others d (serve others c l).2).2 \/
  (interleave others schedule (Do c k) (Do d h) l).2
    = (serve others c (serve others d l).2).2.
Proof.
  intros Hk Hh. destruct schedule as [|[] schedule].
  - left. simpl. destruct (serve others c l) as [x l1]. simpl.
    pose proof (finish_quiet others (k x) l1 (Hk x)) as Hf.
    destruct (finish others (k x) l1) as [a l1']. simpl in Hf. subst l1'.
    destruct (serve others d l1) as [y l2]. simpl.
    pose proof (finish_quiet others (h y) l2 (Hh y)) as Hf.
    destruct (finish others (h y) l2) as [b l2']. simpl in Hf. subst l2'.
    reflexivity.
  - left. simpl. destruct (serve others c l) as [x l1]. simpl.
    rewrite (interleave_quiet_l others schedule (k x) (Do d h) l1 (Hk x)).
    simpl. destruct (serve others d l1) as [y l2]. simpl.
    apply finish_quiet, Hh.
  - right. simpl. destruct (serve others d l) as [y l1]. simpl.
    rewrite (interleave_quiet_r others schedule (Do c k) (h y) l1 (Hh y)).
    simpl. destruct (serve others c l1) as [x l2]. simpl.
    apply finish_quiet, Hk.
Qed.

Lemma Qc_decrements_commute (b x y : Qc) : (b - x - y = b - y - x)%Qc.
Proof. ring. Qed.

Lemma deductUserBalance_one_update userId amountToDeduct :
  exists k,
    deductUserBalance userId amountToDeduct
      = Do (dynamoDB_update (deduction userId amountToDeduct)) k /\
    forall x, quiet (k x).
Proof.
  eexists. split; [ reflexivity | ].
  intros [result|e]; cbn [bind try_catch eval perform quiet is_update].
  - destruct (get result "Attributes") as [attributes|e];
      cbn [bind try_catch eval perform quiet is_update]; [ | now auto ].
    destruct (get attributes "Balance");
      cbn [bind try_catch eval perform quiet is_update]; [ | now auto ].
    split; [ reflexivity | intros _ ].
    destruct (get attributes "Balance"); simpl; auto.
  - auto.
Qed.

Lemma ledger_update_deduction user amount q balance (l : ledger) :
  l !! user = Some balance ->
  marshal amount = Some q ->
  (ledger_update (deduction (VStr user) (VNum amount)) l).2
    = <[user := (balance - q)%Qc]> l.
Proof.
  intros Hl Hm. unfold ledger_update, deduction. simpl.
  rewrite Hl, Hm. reflexivity.
Qed.

(** A deduction sends one request to the store, the update, and reads
    nothing. *)
Lemma deductUserBalance_effects (w : world) userId amountToDeduct :
  filter is_store (run w (deductUserBalance userId amountToDeduct) []).2
  = [ LedgerUpdate (deduction userId amountToDeduct)
        (w [] _ (dynamoDB_update (deduction userId amountToDeduct))) ].
Proof.
  unfold deductUserBalance, deduction.
  cbn [run bind try_catch eval await perform observe app].
  destruct (w [] _ _) as [result|e];
    cbn [run bind try_catch eval await perform observe app]; [ | reflexivity ].
  destruct (get result "Attributes") as [attributes|e];
    cbn [run bind try_catch eval await perform observe app]; [ | reflexivity ].
  destruct (get attributes "Balance");
    cbn [run bind try_catch eval await perform observe app]; [ | reflexivity ].
  destruct (get attributes "Balance");
    cbn [run bind try_catch eval await perform observe app]; reflexivity.
Qed.

Lemma finish_deduction others user amount q balance (l : ledger) :
  l !! user = Some balance ->
  marshal amount = Some q ->
  (finish others (deductUserBalance (VStr user) (VNum amount)) l).2
  = <[user := (balance - q)%Qc]> l.
Proof.
  intros Hl Hm.
  destruct (deductUserBalance_one_update (VStr user) (VNum amount))
    as (k & -> & Hk).
  pose proof (ledger_update_deduction user amount q balance l Hl Hm) as Hu.
  cbn [finish serve].
  destruct (ledger_update (deduction (VStr user) (VNum amount)) l) as [x l1].
  simpl in Hu. subst l1. apply finish_quiet, Hk.
Qed.

Lemma interleave_deductions
    others schedule user amount1 amount2 q1 q2 balance (l : ledger) :
  l !! user = Some balance ->
  marshal amount1 = Some q1 ->
  marshal amount2 = Some q2 ->
  (interleave others schedule
     (deductUserBalance (VStr user) (VNum amount1))
     (deductUserBalance (VStr user) (VNum amount2)) l).2
  = <[user := (balance - q1 - q2)%Qc]> l.
Proof.
  intros Hl H1 H2.
  destruct (deductUserBalance_one_update (VStr user) (VNum amount1))
    as (k & -> & Hk).
  destruct (deductUserBalance_one_update (VStr user) (VNum amount2))
    as (h & -> & Hh).
  assert (Hseq : forall a b qa qb, marshal a = Some qa -> marshal b = Some qb ->
            (serve others (dynamoDB_update (deduction (VStr user) (VNum b)))
               (serve others (dynamoDB_update (deduction (VStr user) (VNum a))) l).2).2
            = <[user := (balance - qa - qb)%Qc]> l).
  { intros a b qa qb Ha Hb. cbn [serve].
    rewrite (ledger_update_deduction user a qa balance l Hl Ha).
    rewrite (ledger_update_deduction user b qb (balance - qa)%Qc);
      [ | apply lookup_insert_eq | exact Hb ].
    apply insert_insert_eq. }
  destruct (interleave_one_call_each others schedule
              (dynamoDB_update (deduction (VStr user) (VNum amount1))) k
              (dynamoDB_update (deduction (VStr user) (VNum amount2))) h
              l Hk Hh) as [E|E];
    rewrite E.
  - apply (Hseq amount1 amount2 q1 q2 H1 H2).
  - rewrite (Hseq amount2 amount1 q2 q1 H2 H1).
    rewrite (Qc_decrements_commute balance q2 q1). reflexivity.
Qed.

(** C9. Two deductions for the same subject in flight: under every
    schedule the balance ends at [balance - q1 - q2], the table ends as if
    the second deduction had run after the first, and a deduction is one
    update request to the store, with no read before it. *)
Theorem concurrent_deductions_are_serial
    others schedule user amount1 amount2 q1 q2 balance (l : ledger) :
  l !! user = Some balance ->
  marshal amount1 = Some q1 ->
  marshal amount2 = Some q2 ->
  let first := deductUserBalance (VStr user) (VNum amount1) in
  let second := deductUserBalance (VStr user) (VNum amount2) in
  (interleave others schedule first second l).2 !! user
    = Some (balance - q1 - q2)%Qc /\
  (interleave others schedule first second l).2
    = (finish others second (finish others first l).2).2 /\
  (forall w : world,
     filter is_store (run w first []).2
     = [ LedgerUpdate (deduction (VStr user) (VNum amount1))
           (w [] _ (dynamoDB_update (deduction (VStr user) (VNum amount1)))) ]).
Proof.
  intros Hl H1 H2 first second. subst first second.
  rewrite (interleave_deductions others schedule user amount1 amount2 q1 q2
             balance l Hl H1 H2).
  split; [ apply lookup_insert_eq | split ].
  - rewrite (finish_deduction others user amount1 q1 balance l Hl H1).
    rewrite (finish_deduction others user amount2 q2 (balance - q1)%Qc);
      [ | apply lookup_insert_eq | exact H2 ].
    symmetry. apply insert_insert_eq.
  - intros w. apply deductUserBalance_effects.
Qed.

(** ** The pipeline beyond the guards *)

Lemma get_Normal v k x : get v k = Normal x -> nullish v = false /\ x = member v k.
Proof. destruct v; simpl; intros H; simplify_eq; auto. Qed.

Lemma get_Abrupt v k e :
  get v k = Abrupt e -> exists message, e = TypeError message.
Proof. destruct v; simpl; intros H; simplify_eq; eauto. Qed.

(** Replaces what the program read by the property it read it from. *)
Ltac reads :=
  repeat match goal with
  | E : get _ _ = Normal _ |- _ =>
      apply get_Normal in E; destruct E as [? ?]; subst
  | E : get _ _ = Abrupt _ |- _ =>
      apply get_Abrupt in E; destruct E as [? ?]; subst
  end.

(** X1. A token that the identity provider rejects: the invocation returns
    401 with the provider's message, and has read no account, called no
    upstream and written to no table. *)
Theorem rejected_token_touches_nothing w event o trace accessToken e :
  invoke w event = (o, trace) ->
  In (TokenInfo accessToken (Abrupt e)) trace ->
  nullish e = false ->
  o = Returned (token_is_invalid (member e "message")) /\
  filter is_account_read trace = [] /\
  no_side_effect trace.
Proof.
  intros H Hin Hn. unfold invoke, handler, pipeline in H.
  exec_in H; simplify_eq; pin Hin; simplify_eq.
  all: rewrite ?(not_nullish_get _ _ Hn) in *; simplify_eq.
  repeat split; reflexivity.
Qed.

(** X2. An account read that fails: 401 with the store's message, no
    upstream call and no write. *)
Theorem rejected_account_read_touches_nothing w event o trace params e :
  invoke w event = (o, trace) ->
  In (AccountRead params (Abrupt e)) trace ->
  nullish e = false ->
  o = Returned (token_is_invalid (member e "message")) /\
  no_side_effect trace.
Proof.
  intros H Hin Hn. unfold invoke, handler, pipeline in H.
  exec_in H; simplify_eq; pin Hin; simplify_eq.
  all: rewrite ?(not_nullish_get _ _ Hn) in *; simplify_eq.
  repeat split; reflexivity.
Qed.

(** X3. A complete upstream answer outside 2xx, or an ['error'] of the
    request: 401 with [Request failed ...] as the error, and neither a log
    record nor a deduction.  A response that starts and never ends leaves
    the invocation unsettled: nothing is returned, and nothing is
    written. *)
Theorem failed_upstream_is_neither_logged_nor_billed
    w event o trace url options text answer :
  invoke w event = (o, trace) ->
  In (Upstream url options text answer) trace ->
  match answer with
  | Ended status chunks =>
      successful status = false ->
      o = Returned (token_is_invalid
                      (VStr ("Request failed with status code "
                             ++ NumberToString status ++ ": " ++ collect chunks))) /\
      filter is_write trace = []
  | Errored error =>
      forall message,
        (m <-- get error "message" ;; ToString m)%completion = Normal message ->
        o = Returned (token_is_invalid (VStr ("Request failed: " ++ message))) /\
        filter is_write trace = []
  | Unfinished status chunks =>
      o = Unsettled /\ filter is_write trace = []
  end.
Proof.
  intros H Hup. unfold invoke, handler, pipeline in H.
  exec_in H; simplify_eq; pin Hup; simplify_eq.
  all: try (split; reflexivity).
  all: try (intros Hs; unfold successful in Hs; try congruence;
            split; reflexivity).
  all: intros message Hm; try congruence.
  all: rewrite Hm in *; simplify_eq; split; reflexivity.
Qed.

(** X5. A deduction that fails: 401 with the store's message, the error
    goes to the console, and the record written before stays; nothing is
    written to undo it. *)
Theorem rejected_deduction_keeps_the_record w event o trace params e :
  invoke w event = (o, trace) ->
  In (LedgerUpdate params (Abrupt e)) trace ->
  nullish e = false ->
  o = Returned (token_is_invalid (member e "message")) /\
  In (ConsoleError [VStr "Error deducting balance:"; e]) trace /\
  exists record written,
    filter is_write trace
    = [LogWrite record (Normal written); LedgerUpdate params (Abrupt e)].
Proof.
  intros H Hin Hn. unfold invoke, handler, pipeline in H.
  exec_in H; simplify_eq; pin Hin; simplify_eq.
  all: rewrite ?(not_nullish_get _ _ Hn) in *; simplify_eq.
  split; [ reflexivity | split; [ simpl; eauto 20 | ] ].
  do 2 eexists. reflexivity.
Qed.

(** X4. A log write that fails after the upstream was called: 401 with the
    store's message and no deduction. *)
Theorem rejected_log_write_is_not_billed w event o trace params e :
  invoke w event = (o, trace) ->
  In (LogWrite params (Abrupt e)) trace ->
  nullish e = false ->
  o = Returned (token_is_invalid (member e "message")) /\
  filter is_upstream trace <> [] /\
  filter is_ledger_update trace = [].
Proof.
  intros H Hin Hn. unfold invoke, handler, pipeline in H.
  exec_in H; simplify_eq; pin Hin; simplify_eq.
  all: rewrite ?(not_nullish_get _ _ Hn) in *; simplify_eq.
  split; [ reflexivity | split; [ discriminate | reflexivity ] ].
Qed.


(** X7. The upstream is called only for a token verified for this client
    whose account exists with a balance that is not below zero. *)
Theorem upstream_only_after_admission w event o trace url options text answer :
  invoke w event = (o, trace) ->
  In (Upstream url options text answer) trace ->
  exists accessToken idToken params dbUser,
    In (TokenInfo accessToken (Normal idToken)) trace /\
    member idToken "aud" = CLIENT_ID /\
    In (AccountRead params (Normal dbUser)) trace /\
    ToBoolean (member dbUser "Item") = true /\
    less_than (member (member dbUser "Item") "Balance") 0 = Normal false.
Proof.
  intros H Hup. unfold invoke, handler, pipeline in H.
  exec_in H; simplify_eq; pin Hup; simplify_eq.
  all: repeat match goal with
       | E : negb _ = false |- _ => apply negb_false_iff in E
       end.
  all: match goal with
       | E : strict_equal _ _ = true |- _ => apply strict_equal_env in E
       end.
  all: match goal with
       | T : _ _ _ (client_getTokenInfo ?tok) = Normal ?id,
         A : _ _ _ (dynamoDB_get ?p) = Normal ?u |- _ =>
           exists tok, id, p, u
       end.
  all: reads.
  all: repeat split; try assumption; simpl; eauto 20.
Qed.

(** X8. A deduction is requested only after a 2xx upstream answer was
    parsed and its record was written, and its amount is the price of that
    response. *)
Theorem deduction_only_after_record w event o trace params answer :
  invoke w event = (o, trace) ->
  In (LedgerUpdate params answer) trace ->
  exists url options text status chunks response record written transactionPrice,
    In (Upstream url options text (Ended status chunks)) trace /\
    successful status = true /\
    JSON_parse (collect chunks) = Normal response /\
    In (LogWrite record (Normal written)) trace /\
    getTransactionPrice response = Normal transactionPrice /\
    member (member params "ExpressionAttributeValues") ":amount"
      = VNum transactionPrice.
Proof.
  intros H Hin. unfold invoke, handler, pipeline in H.
  exec_in H; simplify_eq; pin Hin; simplify_eq.
  all: match goal with
       | U : _ _ _ (https_request ?url ?options ?text) = Ended ?status ?chunks,
         P : JSON_parse _ = Normal ?response,
         L : _ _ _ (dynamoDB_put ?record) = Normal ?written,
         G : getTransactionPrice _ = Normal ?p |- _ =>
           exists url, options, text, status, chunks, response, record, written, p
       end.
  all: unfold successful; repeat split; try assumption; try reflexivity; simpl; eauto 20.
Qed.

(** X9. A 200 response means that one record was written and then one
    deduction succeeded, and nothing else was written. *)
Theorem success_means_logged_and_billed w event o trace r :
  invoke w event = (o, trace) ->
  o = Returned r ->
  statusCode r = 200%Z ->
  exists record written params updated,
    filter is_write trace
    = [LogWrite record (Normal written); LedgerUpdate params (Normal updated)].
Proof.
  intros H Ho Hs. unfold invoke, handler, pipeline in H.
  exec_in H; simplify_eq; try discriminate Hs.
  all: do 4 eexists; reflexivity.
Qed.

(** X10. The account read, the log record and the deduction all carry the
    [email] of the verified token as their subject. *)
Theorem one_subject_throughout w event o trace accessToken idToken :
  invoke w event = (o, trace) ->
  In (TokenInfo accessToken (Normal idToken)) trace ->
  (forall params answer, In (AccountRead params answer) trace ->
     member (member params "Key") "UserID" = member idToken "email") /\
  (forall params answer, In (LogWrite params answer) trace ->
     member (member params "Item") "UserID" = member idToken "email") /\
  (forall params answer, In (LedgerUpdate params answer) trace ->
     member (member params "Key") "UserID" = member idToken "email").
Proof.
  intros H Hin. unfold invoke, handler, pipeline in H.
  exec_in H; simplify_eq; pin Hin; simplify_eq.
  all: reads.
  all: repeat split; intros params answer Hp; pin Hp; simplify_eq; reflexivity.
Qed.

(** X11. The log record goes to [TransactionData]; its model and token
    counts are those of the parsed response ([ReqTokens] the prompt
    tokens, [ResTokens] the completion tokens), its duration is the time
    from the start of the invocation to the clock reading after the
    upstream answer, in seconds, and its identifier is [txn-] followed by
    the clock reading taken when the record is built. *)
Theorem record_describes_the_call
    w event o trace url options text status chunks response params answer :
  invoke w event = (o, trace) ->
  In (Upstream url options text (Ended status chunks)) trace ->
  JSON_parse (collect chunks) = Normal response ->
  In (LogWrite params answer) trace ->
  member params "TableName" = VStr "TransactionData" /\
  member (member params "Item") "Model" = opt_get response "model" /\
  member (member params "Item") "ReqTokens"
    = opt_get (opt_get response "usage") "prompt_tokens" /\
  member (member params "Item") "ResTokens"
    = opt_get (opt_get response "usage") "completion_tokens" /\
  exists before endTime now after,
    trace = (before ++ [Upstream url options text (Ended status chunks);
                        Clock endTime; Clock now; LogWrite params answer]
                    ++ after)%list /\
    member (member params "Item") "Duration"
      = VNum ((endTime - w [] _ Date_now) / 1000)%float /\
    member (member params "Item") "TransactionID"
      = VStr ("txn-" ++ NumberToString now).
Proof.
  intros H Hup Hparse Hin. unfold invoke, handler, pipeline in H.
  exec_in H; simplify_eq; pin Hup; simplify_eq; pin Hin; simplify_eq.
  all: match goal with
       | E : JSON_parse _ = Normal ?x |- _ =>
           tryif constr_eq x response then fail
           else (assert (x = response) by congruence; subst x)
       end.
  all: repeat split; try reflexivity.
  all: refine (ex_intro _ [_; _; _] (ex_intro _ _ (ex_intro _ _ (ex_intro _ _ _))));
    repeat split; reflexivity.
Qed.

(** X12. The upstream request goes to the fixed completions URL as a POST
    with a JSON content type, carries the configured key as bearer, and its
    body is the body of the inbound event. *)
Theorem request_forwarded_unchanged w event o trace url options text answer :
  invoke w event = (o, trace) ->
  In (Upstream url options text answer) trace ->
  url = OPENAI_URL /\
  member event "body" = VStr text /\
  member options "method" = VStr "POST" /\
  member (member options "headers") "Content-Type" = VStr "application/json" /\
  member (member options "headers") "Authorization"
    = VStr ("Bearer " ++ default "undefined" env_OPENAI_KEY).
Proof.
  intros H Hup. unfold invoke, handler, pipeline in H.
  exec_in H; simplify_eq; pin Hup; simplify_eq.
  all: reads.
  all: repeat split; try reflexivity; congruence.
Qed.

(** X13. No collaborator is called twice in one invocation: at most one
    token check, account read, upstream call, log write and deduction. *)
Theorem no_call_is_repeated w event :
  length (filter is_token_check (invoke w event).2) <= 1 /\
  length (filter is_account_read (invoke w event).2) <= 1 /\
  length (filter is_upstream (invoke w event).2) <= 1 /\
  length (filter is_log_write (invoke w event).2) <= 1 /\
  length (filter is_ledger_update (invoke w event).2) <= 1.
Proof.
  destruct (invoke w event) as [o trace] eqn:H.
  unfold invoke, handler, pipeline in H.
  exec_in H; simplify_eq; vm_compute; repeat split; lia.
Qed.

Lemma append_empty_r (s : string) : s ++ "" = s.
Proof.
  induction s as [|c s IH]; [ reflexivity | ].
  change (String c (s ++ "") = String c s). rewrite IH. reflexivity.
Qed.

Lemma append_assoc (s t u : string) : (s ++ t) ++ u = s ++ (t ++ u).
Proof.
  induction s as [|c s IH]; [ reflexivity | ].
  change (String c ((s ++ t) ++ u) = String c (s ++ (t ++ u))).
  rewrite IH. reflexivity.
Qed.

Lemma split_space_spaceless s : spaceless s = true -> split_space s = [s].
Proof.
  induction s as [|c s IH]; simpl; [ reflexivity | ].
  intros H. apply andb_true_iff in H as [Hc Hs].
  apply negb_true_iff in Hc. rewrite Hc, (IH Hs). reflexivity.
Qed.

Lemma split_space_app s t :
  spaceless s = true -> split_space (s ++ " " ++ t) = s :: split_space t.
Proof.
  induction s as [|c s IH]; simpl; [ reflexivity | ].
  intros H. apply andb_true_iff in H as [Hc Hs].
  apply negb_true_iff in Hc. rewrite Hc, (IH Hs). reflexivity.
Qed.

Lemma split_1_Normal v x : split_1 v = Normal x -> exists s, v = VStr s.
Proof. destruct v; simpl; intros H; simplify_eq; eauto. Qed.

Lemma split_1_Abrupt v e :
  split_1 v = Abrupt e -> exists message, e = TypeError message.
Proof.
  destruct v; simpl; intros H; simplify_eq; eauto.
  destruct (split_space s) as [|? [|? ?]]; discriminate.
Qed.

(** X14. Without an [authorization] header that is a string, the
    invocation reads the clock and nothing else: the identity provider is
    not asked, and the answer is 401. *)
Theorem missing_authorization_header w event o trace :
  invoke w event = (o, trace) ->
  (forall s, member (member event "headers") "authorization" <> VStr s) ->
  trace = [Clock (w [] _ Date_now)] /\
  exists message, o = Returned (token_is_invalid (VStr message)).
Proof.
  intros H Hno. unfold invoke, handler, pipeline in H.
  exec_in H; simplify_eq.
  all: try (match goal with
            | E : split_1 _ = Normal _ |- _ =>
                apply split_1_Normal in E as [? ->]
            end;
            reads; exfalso; eapply Hno; symmetry; eassumption).
  all: match goal with
       | E : get _ "headers" = Abrupt _ |- _ => apply get_Abrupt in E as [? ->]
       | E : get _ "authorization" = Abrupt _ |- _ =>
           apply get_Abrupt in E as [? ->]
       | E : split_1 _ = Abrupt _ |- _ => apply split_1_Abrupt in E as [? ->]
       end.
  all: simpl in *; simplify_eq; eauto.
Qed.

Lemma split_space_word token rest :
  spaceless token = true ->
  rest = "" \/ (exists more, rest = " " ++ more) ->
  exists words, split_space (token ++ rest) = token :: words.
Proof.
  intros Ht [->|[more ->]].
  - exists []. rewrite append_empty_r. apply split_space_spaceless, Ht.
  - eexists. apply split_space_app, Ht.
Qed.

Lemma first_word s :
  exists word rest,
    s = word ++ rest /\ spaceless word = true /\
    (rest = "" \/ exists more, rest = " " ++ more).
Proof.
  induction s as [|c s (word & rest & -> & Hw & Hr)].
  - exists "", "". auto.
  - destruct (Ascii.eqb c " "%char) eqn:Ec.
    + apply Ascii.eqb_eq in Ec. subst c.
      exists "", (" " ++ word ++ rest). repeat split; eauto.
    + exists (String c word), rest. repeat split; [ | exact Hr ].
      simpl. rewrite Ec, Hw. reflexivity.
Qed.

(** X15. The identity provider is asked about the second word of the
    header, the text between its first and its second space (up to the end
    when there is one space only, empty when the first space is followed
    by another), whatever the first word is.  For a header without a space
    it is asked about [undefined].  Every header is of one of these two
    shapes. *)
Theorem token_is_the_second_word w event o trace first token rest :
  invoke w event = (o, trace) ->
  spaceless first = true ->
  spaceless token = true ->
  rest = "" \/ (exists more, rest = " " ++ more) ->
  (member (member event "headers") "authorization"
     = VStr (first ++ " " ++ token ++ rest) ->
   exists answer, In (TokenInfo (VStr token) answer) trace) /\
  (member (member event "headers") "authorization" = VStr first ->
   exists answer, In (TokenInfo VUndefined answer) trace) /\
  (forall header : string,
     spaceless header = true \/
     exists first' token' rest',
       header = first' ++ " " ++ token' ++ rest' /\
       spaceless first' = true /\ spaceless token' = true /\
       (rest' = "" \/ exists more, rest' = " " ++ more)).
Proof.
  intros H Hs Ht Hr. unfold invoke, handler, pipeline in H.
  assert (Hn : forall x, member (member event "headers") "authorization" = VStr x ->
               get event "headers" = Normal (member event "headers") /\
               get (member event "headers") "authorization" = Normal (VStr x)).
  { intros x Hx. split.
    - apply not_nullish_get. destruct event; simpl in *; congruence.
    - rewrite not_nullish_get, Hx; [ reflexivity | ].
      destruct (member event "headers"); simpl in *; congruence. }
  split; [ | split ].
  - intros Hh. destruct (Hn _ Hh) as [E1 E2]. rewrite E1 in H.
    cbn [bind try_catch eval run perform observe app] in H.
    rewrite E2 in H. cbn [bind try_catch eval run perform observe app] in H.
    unfold split_1 in H.
    rewrite (split_space_app first (token ++ rest) Hs) in H.
    destruct (split_space_word token rest Ht Hr) as [words Hw].
    rewrite Hw in H.
    exec_in H; simplify_eq; eexists; simpl; eauto.
  - intros Hh. destruct (Hn _ Hh) as [E1 E2]. rewrite E1 in H.
    cbn [bind try_catch eval run perform observe app] in H.
    rewrite E2 in H. cbn [bind try_catch eval run perform observe app] in H.
    unfold split_1 in H.
    rewrite (split_space_spaceless first Hs) in H.
    exec_in H; simplify_eq; eexists; simpl; eauto.
  - intros header.
    destruct (first_word header) as (word & tail & -> & Hw & [->|[more ->]]).
    + left. rewrite append_empty_r. exact Hw.
    + right. destruct (first_word more) as (word' & tail' & -> & Hw' & Ht').
      exists word, word', tail'. auto.
Qed.

(** X16. When the client identifier is not configured, a verified token
    that has no [aud] passes the audience check and the account of its
    [email] is read. *)
Theorem unset_client_id_admits_token_without_audience
    w event o trace accessToken idToken :
  env_GOOGLE_CLIENT_ID = None ->
  invoke w event = (o, trace) ->
  In (TokenInfo accessToken (Normal idToken)) trace ->
  nullish idToken = false ->
  member idToken "aud" = VUndefined ->
  exists answer,
    In (AccountRead
          (VObj [ ("TableName", VStr "UserAccountData");
                  ("Key", VObj [("UserID", member idToken "email")]) ])
          answer) trace.
Proof.
  intros Henv H Hin Hn Haud. unfold invoke, handler, pipeline in H.
  exec_in H; simplify_eq; pin Hin; simplify_eq.
  all: rewrite ?(not_nullish_get _ _ Hn) in *; simplify_eq.
  all: try match goal with
       | E : negb (strict_equal _ CLIENT_ID) = true |- _ =>
           unfold CLIENT_ID in E; rewrite Haud, Henv in E; discriminate E
       end.
  all: eexists; simpl; eauto 20.
Qed.

(** X17. [deductUserBalance] returns the [Balance] the store answers and
    logs it; it rethrows the store's error unchanged after logging it; an
    answer without [Attributes] is a [TypeError], logged and rethrown. *)
Theorem deductUserBalance_outcome (w : world) userId amountToDeduct :
  (forall e,
     w [] _ (dynamoDB_update (deduction userId amountToDeduct)) = Abrupt e ->
     run w (deductUserBalance userId amountToDeduct) []
     = (Rejected e,
        [ LedgerUpdate (deduction userId amountToDeduct) (Abrupt e);
          ConsoleError [VStr "Error deducting balance:"; e] ])) /\
  (forall result,
     w [] _ (dynamoDB_update (deduction userId amountToDeduct)) = Normal result ->
     nullish result = false ->
     nullish (member result "Attributes") = false ->
     run w (deductUserBalance userId amountToDeduct) []
     = (Returned (member (member result "Attributes") "Balance"),
        [ LedgerUpdate (deduction userId amountToDeduct) (Normal result);
          ConsoleLog [ VStr "Updated balance:";
                       member (member result "Attributes") "Balance" ] ])) /\
  (forall result,
     w [] _ (dynamoDB_update (deduction userId amountToDeduct)) = Normal result ->
     nullish result = false ->
     nullish (member result "Attributes") = true ->
     exists message,
       run w (deductUserBalance userId amountToDeduct) []
       = (Rejected (TypeError message),
          [ LedgerUpdate (deduction userId amountToDeduct) (Normal result);
            ConsoleError [VStr "Error deducting balance:"; TypeError message] ])).
Proof.
  unfold deductUserBalance, deduction.
  split; [ | split ].
  - intros e E. cbn [run bind try_catch eval await perform observe app].
    rewrite E. reflexivity.
  - intros result E Hn Hn'.
    cbn [run bind try_catch eval await perform observe app].
    rewrite E. cbn [run bind try_catch eval await perform observe app].
    rewrite (not_nullish_get _ "Attributes" Hn).
    cbn [run bind try_catch eval await perform observe app].
    rewrite (not_nullish_get _ "Balance" Hn').
    reflexivity.
  - intros result E Hn Hn'.
    cbn [run bind try_catch eval await perform observe app].
    rewrite E. cbn [run bind try_catch eval await perform observe app].
    rewrite (not_nullish_get _ "Attributes" Hn).
    cbn [run bind try_catch eval await perform observe app].
    destruct (member result "Attributes"); try discriminate Hn';
      eexists; reflexivity.
Qed.

Lemma concat_cons (c : string) chunks :
  String.concat "" (c :: chunks) = c ++ String.concat "" chunks.
Proof.
  destruct chunks as [|c' chunks]; [ | reflexivity ].
  symmetry. apply append_empty_r.
Qed.

Lemma fold_left_append chunks acc :
  fold_left (fun data chunk => data ++ Buffer_toString chunk) chunks acc
  = acc ++ String.concat "" (map Buffer_toString chunks).
Proof.
  revert acc. induction chunks as [|c chunks IH]; intros acc.
  - symmetry. apply append_empty_r.
  - cbn [map fold_left]. rewrite concat_cons, IH. apply append_assoc.
Qed.

(** X19. The collected body is the concatenation, in the order of arrival,
    of the chunks, each converted to a string on its own; the body of two
    runs of chunks is the body of the first followed by the body of the
    second. *)
Theorem body_is_the_decoded_chunks_in_order chunks chunks' :
  collect chunks = String.concat "" (map Buffer_toString chunks) /\
  collect (chunks ++ chunks') = collect chunks ++ collect chunks'.
Proof.
  unfold collect. split.
  - apply fold_left_append.
  - rewrite fold_left_app, (fold_left_append chunks' (fold_left _ chunks "")),
      (fold_left_append chunks' ""). reflexivity.
Qed.

End Engine.

(** * Scenarios *)

Import Sample.

#[local] Abbreviation sample_invoke :=
  (invoke Sample.StringToNumber Sample.NumberToString Sample.ToPrimitive
     Sample.JSON_parse Sample.JSON_stringify
     Sample.GOOGLE_CLIENT_ID Sample.OPENAI_KEY
     Sample.Buffer_toString Sample.valid_header_value).

#[local] Abbreviation sample_price :=
  (getTransactionPrice Sample.StringToNumber Sample.NumberToString
     Sample.ToPrimitive).

#[local] Abbreviation sample_collect := (collect Sample.Buffer_toString).

(** Finds an event in the trace of a scenario. *)
Ltac found := vm_compute; repeat first [ left; reflexivity | right ].

Lemma price_of_gpt_4o :
  sample_price (completion_response "gpt-4o" 2000 300)
  = Normal ((2000 / 1000) * 0.0025 + (300 / 1000) * 0.01 + 0.00000213)%float.
Proof.
  apply (proj1 (price_formula Sample.StringToNumber Sample.NumberToString
                  Sample.ToPrimitive)
           (completion_response "gpt-4o" 2000 300) "gpt-4o" 2000%float 300%float);
    reflexivity.
Defined.

Lemma price_without_usage :
  sample_price (VObj [("model", VStr "gpt-4")]) = Normal PrimFloat.nan /\
  sample_price (VObj [("model", VStr "gpt-4")]) <> Normal fixedSurcharge.
Proof.
  apply (missing_usage_price_is_NaN Sample.StringToNumber Sample.NumberToString
           Sample.ToPrimitive (VObj [("model", VStr "gpt-4")]) "gpt-4");
    reflexivity.
Defined.

Lemma other_audience_scenario :
  (sample_invoke (environment other_audience) request).1
    = Returned {| statusCode := 401;
                  body := Sample.JSON_stringify
                            (VObj [ ("message", VStr "Access token is not intended for this client");
                                    ("error", VStr "") ]) |} /\
  filter is_account_read (sample_invoke (environment other_audience) request).2 = [] /\
  no_side_effect (sample_invoke (environment other_audience) request).2.
Proof.
  apply (audience_mismatch_rejected Sample.StringToNumber Sample.NumberToString
           Sample.ToPrimitive Sample.JSON_parse Sample.JSON_stringify
           Sample.GOOGLE_CLIENT_ID Sample.OPENAI_KEY
           Sample.Buffer_toString Sample.valid_header_value
           (environment other_audience) request _ _
           (VStr "ya29.token") (idToken "9999.apps.googleusercontent.com")).
  - apply surjective_pairing.
  - found.
  - reflexivity.
  - vm_compute. discriminate.
Defined.

Lemma no_account_scenario :
  (sample_invoke (environment no_account) request).1
    = Returned {| statusCode := 401;
                  body := Sample.JSON_stringify
                            (VObj [ ("message", VStr "User does not exist");
                                    ("error", VStr "") ]) |} /\
  no_side_effect (sample_invoke (environment no_account) request).2.
Proof.
  apply (missing_account_rejected Sample.StringToNumber Sample.NumberToString
           Sample.ToPrimitive Sample.JSON_parse Sample.JSON_stringify
           Sample.GOOGLE_CLIENT_ID Sample.OPENAI_KEY
           Sample.Buffer_toString Sample.valid_header_value
           (environment no_account) request _ _
           (VObj [ ("TableName", VStr "UserAccountData");
                   ("Key", VObj [("UserID", VStr "ada@example.com")]) ])
           (VObj [])).
  - apply surjective_pairing.
  - found.
  - reflexivity.
  - reflexivity.
Defined.

Lemma in_debt_scenario :
  (sample_invoke (environment in_debt) request).1
    = Returned {| statusCode := 402;
                  body := Sample.JSON_stringify
                            (VObj [ ("message", VStr "User has insufficient balance");
                                    ("error", VStr "") ]) |} /\
  no_side_effect (sample_invoke (environment in_debt) request).2.
Proof.
  apply (negative_balance_rejected Sample.StringToNumber Sample.NumberToString
           Sample.ToPrimitive Sample.JSON_parse Sample.JSON_stringify
           Sample.GOOGLE_CLIENT_ID Sample.OPENAI_KEY
           Sample.Buffer_toString Sample.valid_header_value
           (environment in_debt) request _ _
           (VObj [ ("TableName", VStr "UserAccountData");
                   ("Key", VObj [("UserID", VStr "ada@example.com")]) ])
           (Item [("Balance", VNum (-0.5))]) (-0.5)%float).
  - apply surjective_pairing.
  - found.
  - reflexivity.
  - reflexivity.
  - reflexivity.
Defined.

Lemma no_balance_attribute_scenario :
  ((exists r, (sample_invoke (environment no_balance_attribute) request).1 = Returned r
              /\ statusCode r = 402%Z) <->
   below_zero Sample.StringToNumber Sample.ToPrimitive
     (member (member (Item []) "Item") "Balance")) /\
  (forall balance, member (member (Item []) "Item") "Balance" = VNum balance ->
     ((exists r, (sample_invoke (environment no_balance_attribute) request).1
                 = Returned r /\ statusCode r = 402%Z) <->
      PrimFloat.ltb balance 0 = true)) /\
  (member (member (Item []) "Item") "Balance" = VUndefined ->
   (forall r, (sample_invoke (environment no_balance_attribute) request).1
              = Returned r -> statusCode r <> 402%Z) /\
   forall text, member request "body" = VStr text ->
   Sample.valid_header_value
     ("Bearer " ++ default "undefined" Sample.OPENAI_KEY) = true ->
   exists answer,
     In (Upstream OPENAI_URL
           (VObj [ ("method", VStr "POST");
                   ("headers",
                    VObj [ ("Content-Type", VStr "application/json");
                           ("Authorization",
                            VStr ("Bearer "
                                  ++ default "undefined" Sample.OPENAI_KEY)) ]) ])
           text answer)
        (sample_invoke (environment no_balance_attribute) request).2).
Proof.
  apply (admission_by_balance Sample.StringToNumber Sample.NumberToString
           Sample.ToPrimitive Sample.JSON_parse Sample.JSON_stringify
           Sample.GOOGLE_CLIENT_ID Sample.OPENAI_KEY
           Sample.Buffer_toString Sample.valid_header_value
           (environment no_balance_attribute) request _ _
           (VObj [ ("TableName", VStr "UserAccountData");
                   ("Key", VObj [("UserID", VStr "ada@example.com")]) ])
           (Item [])).
  - apply surjective_pairing.
  - found.
  - reflexivity.
Defined.

Lemma all_well_scenario :
  (sample_invoke (environment all_well) request).1
  = Returned {| statusCode := 200; body := VStr completion_text |} /\
  ((sample_invoke (environment all_well) request).1
   = Returned {| statusCode := 200;
                 body := VStr (sample_collect completion_chunks) |} <->
   Sample.JSON_stringify completion_value
   = VStr (sample_collect completion_chunks)).
Proof.
  apply (success_returns_upstream_response Sample.StringToNumber
           Sample.NumberToString Sample.ToPrimitive Sample.JSON_parse
           Sample.JSON_stringify Sample.GOOGLE_CLIENT_ID Sample.OPENAI_KEY
           Sample.Buffer_toString Sample.valid_header_value
           (environment all_well) request _
           (sample_invoke (environment all_well) request).2
           OPENAI_URL requestOptions "{}" 200%float
           completion_chunks
           completion_value
           (deduction (VStr "ada@example.com") (VNum 0.00025212999999999999))
           (VObj [("Attributes", VObj [("Balance", VNum 9.99974787)])])).
  - apply surjective_pairing.
  - found.
  - reflexivity.
  - reflexivity.
  - found.
  - reflexivity.
  - reflexivity.
Defined.

(** The upstream sends the completion with a space after every colon and
    comma; every step succeeds, and the body returned is the same
    completion without the spaces. *)
Lemma pretty_printed_scenario :
  In (Upstream OPENAI_URL requestOptions "{}" (Ended 200 [bytes spaced_text]))
     (sample_invoke (environment pretty_printed) request).2 /\
  sample_collect [bytes spaced_text] = spaced_text /\
  Sample.JSON_parse spaced_text = Normal completion_value /\
  In (LogWrite record (Normal (VObj [])))
     (sample_invoke (environment pretty_printed) request).2 /\
  In (LedgerUpdate
        (deduction (VStr "ada@example.com") (VNum 0.00025212999999999999))
        (deducted all_well))
     (sample_invoke (environment pretty_printed) request).2 /\
  (sample_invoke (environment pretty_printed) request).1
    = Returned {| statusCode := 200; body := VStr completion_text |} /\
  VStr completion_text <> VStr spaced_text.
Proof.
  split; [ found | ].
  split; [ reflexivity | ].
  split; [ reflexivity | ].
  split; [ found | ].
  split; [ found | ].
  split; [ reflexivity | ].
  vm_compute. discriminate.
Qed.

Lemma html_body_scenario :
  (sample_invoke (environment html_body) request).1 = Uncaught Sample.SyntaxError.
Proof.
  apply (unparsable_upstream_body_escapes Sample.StringToNumber
           Sample.NumberToString Sample.ToPrimitive Sample.JSON_parse
           Sample.JSON_stringify Sample.GOOGLE_CLIENT_ID Sample.OPENAI_KEY
           Sample.Buffer_toString Sample.valid_header_value
           (environment html_body) request _
           (sample_invoke (environment html_body) request).2
           OPENAI_URL requestOptions "{}" 200%float [bytes "<html>"]).
  - apply surjective_pairing.
  - found.
  - reflexivity.
  - reflexivity.
Defined.

Lemma all_well_log_then_deduction :
  exists record written,
    filter is_log_write (sample_invoke (environment all_well) request).2
      = [LogWrite record written] /\
    match written, sample_price completion_value with
    | Normal _, Normal transactionPrice =>
        exists params answer,
          filter is_write (sample_invoke (environment all_well) request).2
            = [LogWrite record written; LedgerUpdate params answer] /\
          member (member params "ExpressionAttributeValues") ":amount"
            = VNum transactionPrice
    | _, _ =>
        filter is_ledger_update (sample_invoke (environment all_well) request).2 = []
    end.
Proof.
  apply (log_write_precedes_deduction Sample.StringToNumber
           Sample.NumberToString Sample.ToPrimitive Sample.JSON_parse
           Sample.JSON_stringify Sample.GOOGLE_CLIENT_ID Sample.OPENAI_KEY
           Sample.Buffer_toString Sample.valid_header_value
           (environment all_well) request
           (sample_invoke (environment all_well) request).1
           (sample_invoke (environment all_well) request).2
           OPENAI_URL requestOptions "{}" 200%float
           completion_chunks
           completion_value).
  - apply surjective_pairing.
  - found.
  - reflexivity.
  - reflexivity.
Defined.

Lemma log_rejected_scenario :
  In (Upstream OPENAI_URL requestOptions "{}" (Ended 200 completion_chunks))
     (sample_invoke (environment log_rejected) request).2 /\
  successful 200 = true /\
  Sample.JSON_parse (sample_collect completion_chunks) = Normal completion_value /\
  filter is_written (sample_invoke (environment log_rejected) request).2 = [] /\
  filter is_ledger_update (sample_invoke (environment log_rejected) request).2 = [].
Proof.
  split; [ found | ]. repeat split; reflexivity.
Qed.

Lemma two_deductions_scenario :
  (interleave Sample.marshal Sample.unmarshal silent [false; true; true; false]
     (deductUserBalance (VStr "ada@example.com") (VNum 0.25))
     (deductUserBalance (VStr "ada@example.com") (VNum 0.5))
     {[ "ada@example.com" := Q2Qc 10 ]}).2 !! "ada@example.com"
    = Some (Q2Qc 10 - Q2Qc (1 # 4) - Q2Qc (1 # 2))%Qc /\
  (interleave Sample.marshal Sample.unmarshal silent [false; true; true; false]
     (deductUserBalance (VStr "ada@example.com") (VNum 0.25))
     (deductUserBalance (VStr "ada@example.com") (VNum 0.5))
     {[ "ada@example.com" := Q2Qc 10 ]}).2
    = (finish Sample.marshal Sample.unmarshal silent
         (deductUserBalance (VStr "ada@example.com") (VNum 0.5))
         (finish Sample.marshal Sample.unmarshal silent
            (deductUserBalance (VStr "ada@example.com") (VNum 0.25))
            {[ "ada@example.com" := Q2Qc 10 ]}).2).2 /\
  (forall w : world,
     filter is_store
       (run w (deductUserBalance (VStr "ada@example.com") (VNum 0.25)) []).2
     = [ LedgerUpdate (deduction (VStr "ada@example.com") (VNum 0.25))
           (w [] _ (dynamoDB_update
                      (deduction (VStr "ada@example.com") (VNum 0.25)))) ]).
Proof.
  apply (concurrent_deductions_are_serial Sample.marshal Sample.unmarshal silent
           [false; true; true; false] "ada@example.com"
           0.25%float 0.5%float (Q2Qc (1 # 4)) (Q2Qc (1 # 2)) (Q2Qc 10)
           {[ "ada@example.com" := Q2Qc 10 ]}).
  - apply lookup_singleton_eq.
  - reflexivity.
  - reflexivity.
Defined.

(** ** Scenarios of the pipeline beyond the guards *)

Lemma token_rejected_scenario :
  (sample_invoke (environment token_rejected) request).1
    = Returned (token_is_invalid Sample.JSON_stringify (VStr "invalid_token")) /\
  filter is_account_read (sample_invoke (environment token_rejected) request).2 = [] /\
  no_side_effect (sample_invoke (environment token_rejected) request).2.
Proof.
  apply (rejected_token_touches_nothing Sample.StringToNumber
           Sample.NumberToString Sample.ToPrimitive Sample.JSON_parse
           Sample.JSON_stringify Sample.GOOGLE_CLIENT_ID Sample.OPENAI_KEY
           Sample.Buffer_toString Sample.valid_header_value
           (environment token_rejected) request _ _
           (VStr "ya29.token") (new_Error "invalid_token")).
  - apply surjective_pairing.
  - found.
  - reflexivity.
Defined.

Lemma account_unreachable_scenario :
  (sample_invoke (environment account_unreachable) request).1
    = Returned (token_is_invalid Sample.JSON_stringify
                  (VStr "Requested resource not found")) /\
  no_side_effect (sample_invoke (environment account_unreachable) request).2.
Proof.
  apply (rejected_account_read_touches_nothing Sample.StringToNumber
           Sample.NumberToString Sample.ToPrimitive Sample.JSON_parse
           Sample.JSON_stringify Sample.GOOGLE_CLIENT_ID Sample.OPENAI_KEY
           Sample.Buffer_toString Sample.valid_header_value
           (environment account_unreachable) request _ _
           account_key (new_Error "Requested resource not found")).
  - apply surjective_pairing.
  - found.
  - reflexivity.
Defined.

Lemma upstream_down_scenario :
  (sample_invoke (environment upstream_down) request).1
    = Returned (token_is_invalid Sample.JSON_stringify
                  (VStr ("Request failed with status code "
                         ++ Sample.NumberToString 500 ++ ": "
                         ++ sample_collect [bytes "Internal "; bytes "Server Error"]))) /\
  filter is_write (sample_invoke (environment upstream_down) request).2 = [] /\
  (sample_invoke (environment cut_off) request).1 = Unsettled /\
  filter is_write (sample_invoke (environment cut_off) request).2 = [].
Proof.
  apply and_assoc. split.
  - refine (failed_upstream_is_neither_logged_nor_billed Sample.StringToNumber
              Sample.NumberToString Sample.ToPrimitive Sample.JSON_parse
              Sample.JSON_stringify Sample.GOOGLE_CLIENT_ID Sample.OPENAI_KEY
              Sample.Buffer_toString Sample.valid_header_value
              (environment upstream_down) request _ _
              OPENAI_URL requestOptions "{}"
              (Ended 500 [bytes "Internal "; bytes "Server Error"]) _ _ _).
    + apply surjective_pairing.
    + found.
    + reflexivity.
  - refine (failed_upstream_is_neither_logged_nor_billed Sample.StringToNumber
              Sample.NumberToString Sample.ToPrimitive Sample.JSON_parse
              Sample.JSON_stringify Sample.GOOGLE_CLIENT_ID Sample.OPENAI_KEY
              Sample.Buffer_toString Sample.valid_header_value
              (environment cut_off) request _ _
              OPENAI_URL requestOptions "{}"
              (Unfinished 200 [bytes "{"]) _ _).
    + apply surjective_pairing.
    + found.
Defined.

Lemma log_rejected_is_not_billed :
  (sample_invoke (environment log_rejected) request).1
    = Returned (token_is_invalid Sample.JSON_stringify
                  (VStr "Throughput exceeds the current capacity of your table")) /\
  filter is_upstream (sample_invoke (environment log_rejected) request).2 <> [] /\
  filter is_ledger_update (sample_invoke (environment log_rejected) request).2 = [].
Proof.
  apply (rejected_log_write_is_not_billed Sample.StringToNumber
           Sample.NumberToString Sample.ToPrimitive Sample.JSON_parse
           Sample.JSON_stringify Sample.GOOGLE_CLIENT_ID Sample.OPENAI_KEY
           Sample.Buffer_toString Sample.valid_header_value
           (environment log_rejected) request _ _ record
           (new_Error "Throughput exceeds the current capacity of your table")).
  - apply surjective_pairing.
  - found.
  - reflexivity.
Defined.

Lemma deduction_rejected_scenario :
  (sample_invoke (environment deduction_rejected) request).1
    = Returned (token_is_invalid Sample.JSON_stringify
                  (VStr "The conditional request failed")) /\
  In (ConsoleError [ VStr "Error deducting balance:";
                     new_Error "The conditional request failed" ])
     (sample_invoke (environment deduction_rejected) request).2 /\
  exists record written,
    filter is_write (sample_invoke (environment deduction_rejected) request).2
    = [ LogWrite record (Normal written);
        LedgerUpdate
          (deduction (VStr "ada@example.com") (VNum 0.00025212999999999999))
          (Abrupt (new_Error "The conditional request failed")) ].
Proof.
  apply (rejected_deduction_keeps_the_record Sample.StringToNumber
           Sample.NumberToString Sample.ToPrimitive Sample.JSON_parse
           Sample.JSON_stringify Sample.GOOGLE_CLIENT_ID Sample.OPENAI_KEY
           Sample.Buffer_toString Sample.valid_header_value
           (environment deduction_rejected) request _ _
           (deduction (VStr "ada@example.com") (VNum 0.00025212999999999999))
           (new_Error "The conditional request failed")).
  - apply surjective_pairing.
  - found.
  - reflexivity.
Defined.

Lemma all_well_was_admitted :
  exists accessToken idToken params dbUser,
    In (TokenInfo accessToken (Normal idToken))
       (sample_invoke (environment all_well) request).2 /\
    member idToken "aud" = CLIENT_ID Sample.GOOGLE_CLIENT_ID /\
    In (AccountRead params (Normal dbUser))
       (sample_invoke (environment all_well) request).2 /\
    ToBoolean (member dbUser "Item") = true /\
    less_than Sample.StringToNumber Sample.ToPrimitive
      (member (member dbUser "Item") "Balance") 0 = Normal false.
Proof.
  apply (upstream_only_after_admission Sample.StringToNumber
           Sample.NumberToString Sample.ToPrimitive Sample.JSON_parse
           Sample.JSON_stringify Sample.GOOGLE_CLIENT_ID Sample.OPENAI_KEY
           Sample.Buffer_toString Sample.valid_header_value
           (environment all_well) request
           (sample_invoke (environment all_well) request).1 _
           OPENAI_URL requestOptions "{}" (Ended 200 completion_chunks)).
  - apply surjective_pairing.
  - found.
Defined.

Lemma all_well_was_recorded :
  exists url options text status chunks response record written transactionPrice,
    In (Upstream url options text (Ended status chunks))
       (sample_invoke (environment all_well) request).2 /\
    successful status = true /\
    Sample.JSON_parse (sample_collect chunks) = Normal response /\
    In (LogWrite record (Normal written))
       (sample_invoke (environment all_well) request).2 /\
    sample_price response = Normal transactionPrice /\
    member (member (deduction (VStr "ada@example.com")
                      (VNum 0.00025212999999999999))
              "ExpressionAttributeValues") ":amount"
      = VNum transactionPrice.
Proof.
  apply (deduction_only_after_record Sample.StringToNumber
           Sample.NumberToString Sample.ToPrimitive Sample.JSON_parse
           Sample.JSON_stringify Sample.GOOGLE_CLIENT_ID Sample.OPENAI_KEY
           Sample.Buffer_toString Sample.valid_header_value
           (environment all_well) request
           (sample_invoke (environment all_well) request).1 _
           (deduction (VStr "ada@example.com") (VNum 0.00025212999999999999))
           (deducted all_well)).
  - apply surjective_pairing.
  - found.
Defined.

Lemma all_well_was_logged_and_billed :
  exists record written params updated,
    filter is_write (sample_invoke (environment all_well) request).2
    = [LogWrite record (Normal written); LedgerUpdate params (Normal updated)].
Proof.
  apply (success_means_logged_and_billed Sample.StringToNumber
           Sample.NumberToString Sample.ToPrimitive Sample.JSON_parse
           Sample.JSON_stringify Sample.GOOGLE_CLIENT_ID Sample.OPENAI_KEY
           Sample.Buffer_toString Sample.valid_header_value
           (environment all_well) request
           (sample_invoke (environment all_well) request).1 _
           {| statusCode := 200; body := VStr completion_text |}).
  - apply surjective_pairing.
  - reflexivity.
  - reflexivity.
Defined.

Lemma all_well_has_one_subject :
  (forall params answer,
     In (AccountRead params answer) (sample_invoke (environment all_well) request).2 ->
     member (member params "Key") "UserID"
       = member (idToken "1234.apps.googleusercontent.com") "email") /\
  (forall params answer,
     In (LogWrite params answer) (sample_invoke (environment all_well) request).2 ->
     member (member params "Item") "UserID"
       = member (idToken "1234.apps.googleusercontent.com") "email") /\
  (forall params answer,
     In (LedgerUpdate params answer) (sample_invoke (environment all_well) request).2 ->
     member (member params "Key") "UserID"
       = member (idToken "1234.apps.googleusercontent.com") "email").
Proof.
  apply (one_subject_throughout Sample.StringToNumber
           Sample.NumberToString Sample.ToPrimitive Sample.JSON_parse
           Sample.JSON_stringify Sample.GOOGLE_CLIENT_ID Sample.OPENAI_KEY
           Sample.Buffer_toString Sample.valid_header_value
           (environment all_well) request
           (sample_invoke (environment all_well) request).1 _
           (VStr "ya29.token") (idToken "1234.apps.googleusercontent.com")).
  - apply surjective_pairing.
  - found.
Defined.

Lemma all_well_record :
  member record "TableName" = VStr "TransactionData" /\
  member (member record "Item") "Model" = opt_get completion_value "model" /\
  member (member record "Item") "ReqTokens"
    = opt_get (opt_get completion_value "usage") "prompt_tokens" /\
  member (member record "Item") "ResTokens"
    = opt_get (opt_get completion_value "usage") "completion_tokens" /\
  exists before endTime now after,
    (sample_invoke (environment all_well) request).2
    = (before ++ [ Upstream OPENAI_URL requestOptions "{}"
                     (Ended 200 completion_chunks);
                   Clock endTime; Clock now;
                   LogWrite record (Normal (VObj [])) ] ++ after)%list /\
    member (member record "Item") "Duration"
      = VNum ((endTime - environment all_well [] _ Date_now) / 1000)%float /\
    member (member record "Item") "TransactionID"
      = VStr ("txn-" ++ Sample.NumberToString now).
Proof.
  apply (record_describes_the_call Sample.StringToNumber
           Sample.NumberToString Sample.ToPrimitive Sample.JSON_parse
           Sample.JSON_stringify Sample.GOOGLE_CLIENT_ID Sample.OPENAI_KEY
           Sample.Buffer_toString Sample.valid_header_value
           (environment all_well) request
           (sample_invoke (environment all_well) request).1 _
           OPENAI_URL requestOptions "{}" 200%float completion_chunks
           completion_value record (Normal (VObj []))).
  - apply surjective_pairing.
  - found.
  - reflexivity.
  - found.
Defined.

Lemma all_well_request :
  OPENAI_URL = OPENAI_URL /\
  member request "body" = VStr "{}" /\
  member requestOptions "method" = VStr "POST" /\
  member (member requestOptions "headers") "Content-Type"
    = VStr "application/json" /\
  member (member requestOptions "headers") "Authorization"
    = VStr ("Bearer " ++ default "undefined" Sample.OPENAI_KEY).
Proof.
  apply (request_forwarded_unchanged Sample.StringToNumber
           Sample.NumberToString Sample.ToPrimitive Sample.JSON_parse
           Sample.JSON_stringify Sample.GOOGLE_CLIENT_ID Sample.OPENAI_KEY
           Sample.Buffer_toString Sample.valid_header_value
           (environment all_well) request
           (sample_invoke (environment all_well) request).1
           (sample_invoke (environment all_well) request).2
           OPENAI_URL requestOptions "{}" (Ended 200 completion_chunks)).
  - apply surjective_pairing.
  - found.
Defined.

Lemma request_without_header_scenario :
  (sample_invoke (environment all_well) request_without_header).2
    = [Clock (environment all_well [] _ Date_now)] /\
  exists message,
    (sample_invoke (environment all_well) request_without_header).1
    = Returned (token_is_invalid Sample.JSON_stringify (VStr message)).
Proof.
  apply (missing_authorization_header Sample.StringToNumber
           Sample.NumberToString Sample.ToPrimitive Sample.JSON_parse
           Sample.JSON_stringify Sample.GOOGLE_CLIENT_ID Sample.OPENAI_KEY
           Sample.Buffer_toString Sample.valid_header_value
           (environment all_well) request_without_header).
  - apply surjective_pairing.
  - intros s. vm_compute. discriminate.
Defined.

Lemma other_scheme_scenario :
  (exists answer,
     In (TokenInfo (VStr "ya29.token") answer)
        (sample_invoke (environment all_well) request_three_words).2) /\
  (exists answer,
     In (TokenInfo (VStr "ya29.token") answer)
        (sample_invoke (environment all_well) request_basic).2) /\
  (exists answer,
     In (TokenInfo VUndefined answer)
        (sample_invoke (environment all_well) request_one_word).2).
Proof.
  split; [ | split ].
  - apply (proj1 (token_is_the_second_word Sample.StringToNumber
                    Sample.NumberToString Sample.ToPrimitive Sample.JSON_parse
                    Sample.JSON_stringify Sample.GOOGLE_CLIENT_ID
                    Sample.OPENAI_KEY
                    Sample.Buffer_toString Sample.valid_header_value
                    (environment all_well) request_three_words
                    (sample_invoke (environment all_well) request_three_words).1 _
                    "Bearer" "ya29.token" " and more"
                    (surjective_pairing _) eq_refl eq_refl
                    (or_intror (ex_intro _ "and more" eq_refl)))).
    reflexivity.
  - apply (proj1 (token_is_the_second_word Sample.StringToNumber
                    Sample.NumberToString Sample.ToPrimitive Sample.JSON_parse
                    Sample.JSON_stringify Sample.GOOGLE_CLIENT_ID
                    Sample.OPENAI_KEY
                    Sample.Buffer_toString Sample.valid_header_value
                    (environment all_well) request_basic
                    (sample_invoke (environment all_well) request_basic).1 _
                    "Basic" "ya29.token" ""
                    (surjective_pairing _) eq_refl eq_refl
                    (or_introl eq_refl))).
    reflexivity.
  - apply (proj1 (proj2 (token_is_the_second_word Sample.StringToNumber
                    Sample.NumberToString Sample.ToPrimitive Sample.JSON_parse
                    Sample.JSON_stringify Sample.GOOGLE_CLIENT_ID
                    Sample.OPENAI_KEY
                    Sample.Buffer_toString Sample.valid_header_value
                    (environment all_well) request_one_word
                    (sample_invoke (environment all_well) request_one_word).1 _
                    "ya29.token" "" ""
                    (surjective_pairing _) eq_refl eq_refl
                    (or_introl eq_refl)))).
    reflexivity.
Defined.

Lemma no_audience_scenario :
  exists answer,
    In (AccountRead
          (VObj [ ("TableName", VStr "UserAccountData");
                  ("Key", VObj [("UserID",
                                 member (VObj [("email", VStr "ada@example.com")])
                                   "email")]) ])
          answer)
       (invoke Sample.StringToNumber Sample.NumberToString Sample.ToPrimitive
          Sample.JSON_parse Sample.JSON_stringify None Sample.OPENAI_KEY Sample.Buffer_toString
          Sample.valid_header_value
          (environment no_audience) request).2.
Proof.
  apply (unset_client_id_admits_token_without_audience Sample.StringToNumber
           Sample.NumberToString Sample.ToPrimitive Sample.JSON_parse
           Sample.JSON_stringify None Sample.OPENAI_KEY Sample.Buffer_toString
          Sample.valid_header_value
           (environment no_audience) request
           (invoke Sample.StringToNumber Sample.NumberToString Sample.ToPrimitive
              Sample.JSON_parse Sample.JSON_stringify None Sample.OPENAI_KEY Sample.Buffer_toString
          Sample.valid_header_value
              (environment no_audience) request).1 _
           (VStr "ya29.token") (VObj [("email", VStr "ada@example.com")])).
  - reflexivity.
  - apply surjective_pairing.
  - found.
  - reflexivity.
  - reflexivity.
Defined.

Lemma completion_is_priced :
  exists transactionPrice, sample_price completion_value = Normal transactionPrice.
Proof.
  apply (getTransactionPrice_total Sample.StringToNumber Sample.NumberToString
           Sample.ToPrimitive completion_value); reflexivity.
Defined.
